(** * gh-api-mcp: the repository content access layer

    A shallow embedding of [gh_api_mcp/__init__.py]: the authentication gate
    ([require_auth]), the default branch resolver ([_get_default_branch]), the
    tree lister ([list_tree]) and the file reader ([read_file]).

    Python values are embedded as they are at run time:
    - a [str] is a sequence of Unicode code points, a [bytes] a sequence of
      octets, both as [list N];
    - a value produced by [json.loads] is a [json] tree; a Python [dict] is
      an association list in insertion order (keys are distinct), since
      [json.dumps] emits the keys in that order;
    - a Python expression that can raise evaluates to a [Res];
    - code that runs the [gh] client runs in [M], which threads the list of
      the processes started so far.

    The [gh] client, [json.loads] and the text Python gives to floats, lists
    and dicts are outside the program: they are the fields of a [World]. *)

From Stdlib Require Import List NArith ZArith String Ascii Bool Lia DecimalString.
Import ListNotations.

Local Open Scope N_scope.

(** ** Strings and bytes *)

Definition str := list N.
Definition bytes := list N.

(** A literal of the source, as a sequence of code points. *)
Definition lit (s : string) : str := map N_of_ascii (list_ascii_of_string s).

Arguments lit : simpl never.

Fixpoint str_eqb (a b : str) : bool :=
  match a, b with
  | [], [] => true
  | x :: a', y :: b' => (x =? y) && str_eqb a' b'
  | _, _ => false
  end.

Definition is_empty {A} (l : list A) : bool :=
  match l with [] => true | _ :: _ => false end.

(** [s.startswith(prefix)] *)
Fixpoint startswith (s prefix : str) : bool :=
  match prefix, s with
  | [], _ => true
  | p :: prefix', c :: s' => (c =? p) && startswith s' prefix'
  | _ :: _, [] => false
  end.

(** [sub in s] for two strings *)
Fixpoint str_contains (s sub : str) : bool :=
  startswith s sub ||
  match s with
  | [] => false
  | _ :: s' => str_contains s' sub
  end.

(** [s.lstrip("/")]: every leading ["/"] is removed. *)
Fixpoint lstrip_slash (s : str) : str :=
  match s with
  | c :: s' => if c =? 47 then lstrip_slash s' else s
  | [] => []
  end.

(** [sep.join(parts)] *)
Fixpoint join (sep : str) (parts : list str) : str :=
  match parts with
  | [] => []
  | [p] => p
  | p :: rest => p ++ sep ++ join sep rest
  end.

(** The line boundaries of [str.splitlines]: LF, VT, FF, CR, FS, GS, RS,
    NEL, LINE SEPARATOR and PARAGRAPH SEPARATOR. *)
Definition is_linebreak (c : N) : bool :=
  (c =? 10) || (c =? 11) || (c =? 12) || (c =? 13) || (c =? 28) || (c =? 29)
  || (c =? 30) || (c =? 133) || (c =? 8232) || (c =? 8233).

Definition not_linebreak (c : N) : bool := negb (is_linebreak c).

(** [s.splitlines()]: [cur] is the line being read; CR LF is one boundary;
    no empty line is produced after a final boundary. *)
Fixpoint splitlines_from (cur : str) (s : str) : list str :=
  match s with
  | [] => if is_empty cur then [] else [cur]
  | c :: rest =>
      if c =? 13 then
        match rest with
        | c' :: rest' =>
            if c' =? 10 then cur :: splitlines_from [] rest'
            else cur :: splitlines_from [] rest
        | [] => cur :: splitlines_from [] rest
        end
      else if is_linebreak c then cur :: splitlines_from [] rest
      else splitlines_from (cur ++ [c]) rest
  end.

Definition splitlines (s : str) : list str := splitlines_from [] s.

(** Decimal text of an integer, as [str(n)] and [json.dumps] write it. *)
Definition dec (z : Z) : str := lit (NilZero.string_of_int (Z.to_int z)).

Definition hex_digit (d : N) : N :=
  if d <? 10 then 48 + d else 87 + d.

(** ['\\x%02x'] *)
Definition hex2 (c : N) : str :=
  [hex_digit (N.shiftr c 4 mod 16); hex_digit (c mod 16)].

(** ['%04x'] *)
Definition hex4 (c : N) : str :=
  [hex_digit (N.shiftr c 12 mod 16); hex_digit (N.shiftr c 8 mod 16);
   hex_digit (N.shiftr c 4 mod 16); hex_digit (c mod 16)].

(** [repr(b)] of a bytes object, which is what an f-string writes for it:
    the quote is the apostrophe (39), unless the bytes hold an apostrophe and
    no double quote (34). *)
Definition bytes_repr_quote (b : bytes) : N :=
  if existsb (N.eqb 39) b && negb (existsb (N.eqb 34) b) then 34 else 39.

Definition bytes_repr_char (quote c : N) : str :=
  if (c =? quote) || (c =? 92) then [92; c]
  else if c =? 9 then lit "\t"
  else if c =? 10 then lit "\n"
  else if c =? 13 then lit "\r"
  else if (c <? 32) || (127 <=? c) then lit "\x" ++ hex2 c
  else [c].

Definition bytes_repr (b : bytes) : str :=
  let q := bytes_repr_quote b in
  lit "b" ++ [q] ++ flat_map (bytes_repr_char q) b ++ [q].

(** A bytes object holds octets. *)
Definition is_bytes (bs : bytes) : Prop := Forall (fun b => b < 256) bs.

(** A check on every octet, and on every pair of octets. *)
Definition bytes_all (P : N -> bool) : bool :=
  forallb P (map N.of_nat (seq 0 256)).

Definition bytes_all2 (P : N -> N -> bool) : bool :=
  bytes_all (fun a => bytes_all (P a)).

(** ** UTF-8 decoding

    [utf8_scan] reads the bytes the way CPython's decoder does: a well-formed
    sequence gives its code point, and each maximal ill-formed part gives
    [None]. *)

Definition is_cont (b : N) : bool := (128 <=? b) && (b <? 192).

Definition in_range (lo hi b : N) : bool := (lo <=? b) && (b <=? hi).

Definition cont_bits (b : N) : N := N.land b 63.

Fixpoint utf8_scan (bs : bytes) : list (option N) :=
  match bs with
  | [] => []
  | b0 :: r0 =>
      if b0 <? 128 then Some b0 :: utf8_scan r0
      else if b0 <? 194 then None :: utf8_scan r0
      else if b0 <? 224 then
        match r0 with
        | b1 :: r1 =>
            if is_cont b1
            then Some (N.lor (N.shiftl (N.land b0 31) 6) (cont_bits b1)) :: utf8_scan r1
            else None :: utf8_scan r0
        | [] => [None]
        end
      else if b0 <? 240 then
        match r0 with
        | b1 :: r1 =>
            if in_range (if b0 =? 224 then 160 else 128)
                        (if b0 =? 237 then 159 else 191) b1
            then
              match r1 with
              | b2 :: r2 =>
                  if is_cont b2
                  then Some (N.lor (N.shiftl (N.land b0 15) 12)
                               (N.lor (N.shiftl (cont_bits b1) 6) (cont_bits b2)))
                       :: utf8_scan r2
                  else None :: utf8_scan r1
              | [] => [None]
              end
            else None :: utf8_scan r0
        | [] => [None]
        end
      else if b0 <? 245 then
        match r0 with
        | b1 :: r1 =>
            if in_range (if b0 =? 240 then 144 else 128)
                        (if b0 =? 244 then 143 else 191) b1
            then
              match r1 with
              | b2 :: r2 =>
                  if is_cont b2 then
                    match r2 with
                    | b3 :: r3 =>
                        if is_cont b3
                        then Some (N.lor (N.shiftl (N.land b0 7) 18)
                                     (N.lor (N.shiftl (cont_bits b1) 12)
                                        (N.lor (N.shiftl (cont_bits b2) 6) (cont_bits b3))))
                             :: utf8_scan r3
                        else None :: utf8_scan r2
                    | [] => [None]
                    end
                  else None :: utf8_scan r1
              | [] => [None]
              end
            else None :: utf8_scan r0
        | [] => [None]
        end
      else None :: utf8_scan r0
  end.

(** [b.decode("utf-8", errors="replace")]: U+FFFD for each ill-formed part. *)
Definition decode_utf8_replace (bs : bytes) : str :=
  map (fun o => match o with Some c => c | None => 65533 end) (utf8_scan bs).

(** [b.decode("utf-8")]: no text when some part is ill-formed. *)
Fixpoint all_some (l : list (option N)) : option str :=
  match l with
  | [] => Some []
  | Some c :: l' => option_map (cons c) (all_some l')
  | None :: _ => None
  end.

Definition decode_utf8_strict (bs : bytes) : option str := all_some (utf8_scan bs).


(** ** Base64

    [table_b2a_base64] and [table_a2b_base64] of CPython's binascii module. *)

Definition table_b2a_base64 (v : N) : N :=
  if v <? 26 then 65 + v
  else if v <? 52 then 97 + (v - 26)
  else if v <? 62 then 48 + (v - 52)
  else if v =? 62 then 43
  else 47.

Definition table_a2b_base64 (c : N) : option N :=
  if in_range 65 90 c then Some (c - 65)
  else if in_range 97 122 c then Some (c - 97 + 26)
  else if in_range 48 57 c then Some (c - 48 + 52)
  else if c =? 43 then Some 62
  else if c =? 47 then Some 63
  else None.

(** The four 6-bit groups of three octets, as [binascii.b2a_base64] cuts
    them. *)
Definition sextet0 (a : N) : N := N.shiftr a 2.
Definition sextet1 (a b : N) : N := N.lor (N.shiftl (N.land a 3) 4) (N.shiftr b 4).
Definition sextet2 (b c : N) : N := N.lor (N.shiftl (N.land b 15) 2) (N.shiftr c 6).
Definition sextet3 (c : N) : N := N.land c 63.

(** [base64.b64encode(bs)], the text of it: a last group of one or two
    octets is completed with zero bits and padded with [=]. *)
Fixpoint b64encode (bs : bytes) : str :=
  match bs with
  | [] => []
  | [a] =>
      [table_b2a_base64 (sextet0 a); table_b2a_base64 (sextet1 a 0); 61; 61]
  | [a; b] =>
      [table_b2a_base64 (sextet0 a); table_b2a_base64 (sextet1 a b);
       table_b2a_base64 (sextet2 b 0); 61]
  | a :: b :: c :: rest =>
      table_b2a_base64 (sextet0 a)
      :: table_b2a_base64 (sextet1 a b)
      :: table_b2a_base64 (sextet2 b c)
      :: table_b2a_base64 (sextet3 c)
      :: b64encode rest
  end.

(** The loop of [binascii.a2b_base64(data, strict_mode)] (CPython 3.11 and
    later), one character per step. [quad_pos], [leftchar], [pads] and
    [padding_started] are the C locals, [acc] the bytes written so far. The
    result is the decoded bytes or the message of the [binascii.Error]. *)
Fixpoint a2b_loop (strict : bool) (quad_pos leftchar pads : N)
    (padding_started : bool) (acc : bytes) (data : bytes) : bytes + str :=
  match data with
  | [] =>
      if quad_pos =? 0 then inl acc
      else if quad_pos =? 1 then
        inr (lit "Invalid base64-encoded string: number of data characters ("
             ++ dec (Z.of_N (N.of_nat (List.length acc) / 3 * 4 + 1))
             ++ lit ") cannot be 1 more than a multiple of 4")
      else inr (lit "Incorrect padding")
  | this_ch :: rest =>
      if this_ch =? 61 then
        if (2 <=? quad_pos) && (4 <=? quad_pos + (pads + 1)) then
          if strict && negb (is_empty rest)
          then inr (lit "Excess data after padding")
          else inl acc
        else
          a2b_loop strict quad_pos leftchar
            (if 2 <=? quad_pos then pads + 1 else pads) true acc rest
      else
        match table_a2b_base64 this_ch with
        | None =>
            if strict then inr (lit "Only base64 data is allowed")
            else a2b_loop strict quad_pos leftchar pads padding_started acc rest
        | Some v =>
            if strict && padding_started
            then inr (lit "Discontinuous padding not allowed")
            else if quad_pos =? 0 then
              a2b_loop strict 1 v 0 padding_started acc rest
            else if quad_pos =? 1 then
              a2b_loop strict 2 (N.land v 15) 0 padding_started
                (acc ++ [N.lor (N.shiftl leftchar 2) (N.shiftr v 4) mod 256]) rest
            else if quad_pos =? 2 then
              a2b_loop strict 3 (N.land v 3) 0 padding_started
                (acc ++ [N.lor (N.shiftl leftchar 4) (N.shiftr v 2) mod 256]) rest
            else
              a2b_loop strict 0 0 0 padding_started
                (acc ++ [N.lor (N.shiftl leftchar 6) v mod 256]) rest
        end
  end.

Definition a2b_base64 (data : bytes) (strict_mode : bool) : bytes + str :=
  if strict_mode && match data with c :: _ => c =? 61 | [] => false end
  then inr (lit "Leading padding not allowed")
  else a2b_loop strict_mode 0 0 0 false [] data.

(** [s.encode("ascii")] *)
Definition encode_ascii (s : str) : option bytes :=
  if forallb (fun c => c <? 128) s then Some s else None.


(** ** Values of [json.loads] *)

Set Warnings "-register-all".

(** A float is never computed with here: it is kept as whether it is zero
    (its truth value) and the text [json.dumps] writes for it. *)
Record pyfloat := { float_is_zero : bool; float_text : str }.

Inductive json :=
| JNull
| JBool (b : bool)
| JInt (z : Z)
| JFloat (f : pyfloat)
| JStr (s : str)
| JList (l : list json)
| JObject (kv : list (str * json)).

(** [type(v).__name__] *)
Definition type_name (v : json) : str :=
  match v with
  | JNull => lit "NoneType"
  | JBool _ => lit "bool"
  | JInt _ => lit "int"
  | JFloat _ => lit "float"
  | JStr _ => lit "str"
  | JList _ => lit "list"
  | JObject _ => lit "dict"
  end.

(** The truth value of [v], as [if v], [not v] and [v or d] take it. *)
Definition truthy (v : json) : bool :=
  match v with
  | JNull => false
  | JBool b => b
  | JInt z => negb (z =? 0)%Z
  | JFloat f => negb (float_is_zero f)
  | JStr s => negb (is_empty s)
  | JList l => negb (is_empty l)
  | JObject kv => negb (is_empty kv)
  end.

(** [v == s] for a string literal [s] *)
Definition py_eq_str (v : json) (s : str) : bool :=
  match v with
  | JStr t => str_eqb t s
  | _ => false
  end.

Fixpoint dict_get (k : str) (kv : list (str * json)) : option json :=
  match kv with
  | [] => None
  | (k', v) :: kv' => if str_eqb k' k then Some v else dict_get k kv'
  end.

Definition dict_has (k : str) (kv : list (str * json)) : bool :=
  match dict_get k kv with Some _ => true | None => false end.

(** ** Exceptions and results

    Every exception carries [str(e)]; a [CalledProcessError] also carries the
    captured standard error. The texts of [TypeError], [AttributeError] and
    [KeyError] are those of CPython 3.11. *)

Inductive exn :=
| CalledProcessError (msg : str) (stderr : bytes)
| JSONDecodeError (msg : str)
| BinasciiError (msg : str)
| ValueError (msg : str)
| TypeError (msg : str)
| AttributeError (msg : str)
| KeyError (msg : str)
| OtherException (msg : str).

Definition exn_str (e : exn) : str :=
  match e with
  | CalledProcessError msg _ => msg
  | JSONDecodeError msg | BinasciiError msg | ValueError msg | TypeError msg
  | AttributeError msg | KeyError msg | OtherException msg => msg
  end.

Inductive Res (A : Type) :=
| Ret (a : A)
| Raise (e : exn).

Arguments Ret {A} a.
Arguments Raise {A} e.

Definition rbind {A B} (r : Res A) (k : A -> Res B) : Res B :=
  match r with
  | Ret a => k a
  | Raise e => Raise e
  end.

Declare Scope py_scope.
Delimit Scope py_scope with py.

Notation "x <~ r ;; k" := (rbind r (fun x => k))
  (at level 61, r at next level, right associativity) : py_scope.

Local Open Scope py_scope.

(** A list comprehension [[e for e in l if cond(e)]]: the first element whose
    condition raises ends it. *)
Fixpoint filterM (cond : json -> Res bool) (l : list json) : Res (list json) :=
  match l with
  | [] => Ret []
  | e :: l' =>
      c <~ cond e ;;
      rest <~ filterM cond l' ;;
      Ret (if c then e :: rest else rest)
  end.

(** A loop that appends [f e] for each [e] of [l]. *)
Fixpoint mapM (f : json -> Res json) (l : list json) : Res (list json) :=
  match l with
  | [] => Ret []
  | e :: l' =>
      x <~ f e ;;
      rest <~ mapM f l' ;;
      Ret (x :: rest)
  end.

Definition no_attribute (v : json) (name : string) : exn :=
  AttributeError (lit "'" ++ type_name v ++ lit "' object has no attribute '"
                  ++ lit name ++ lit "'").

(** [v.get(k, default)]: only a dict has [get]. *)
Definition py_get (v : json) (k : str) (default : json) : Res json :=
  match v with
  | JObject kv =>
      Ret (match dict_get k kv with Some x => x | None => default end)
  | _ => Raise (no_attribute v "get")
  end.

(** [k in v] for a string [k]: a key of a dict, an element of a list, a part
    of a string; the other values are not containers. *)
Definition py_contains (k : str) (v : json) : Res bool :=
  match v with
  | JObject kv => Ret (dict_has k kv)
  | JList l => Ret (existsb (fun x => py_eq_str x k) l)
  | JStr s => Ret (str_contains s k)
  | _ => Raise (TypeError (lit "argument of type '" ++ type_name v
                           ++ lit "' is not iterable"))
  end.

(** [v[k]] for a string [k] *)
Definition py_getitem (v : json) (k : str) : Res json :=
  match v with
  | JObject kv =>
      match dict_get k kv with
      | Some x => Ret x
      | None => Raise (KeyError (lit "'" ++ k ++ lit "'"))
      end
  | JList _ => Raise (TypeError (lit "list indices must be integers or slices, not str"))
  | JStr _ => Raise (TypeError (lit "string indices must be integers, not 'str'"))
  | _ => Raise (TypeError (lit "'" ++ type_name v ++ lit "' object is not subscriptable"))
  end.

(** The elements [for e in v] goes through: those of a list, the keys of a
    dict, the characters of a string. *)
Definition py_iter (v : json) : Res (list json) :=
  match v with
  | JList l => Ret l
  | JObject kv => Ret (map (fun p => JStr (fst p)) kv)
  | JStr s => Ret (map (fun c => JStr [c]) s)
  | _ => Raise (TypeError (lit "'" ++ type_name v ++ lit "' object is not iterable"))
  end.

(** [v.startswith(prefix)] *)
Definition py_startswith (v : json) (prefix : str) : Res bool :=
  match v with
  | JStr s => Ret (startswith s prefix)
  | _ => Raise (no_attribute v "startswith")
  end.

(** [v.splitlines()] *)
Definition py_splitlines (v : json) : Res (list str) :=
  match v with
  | JStr s => Ret (splitlines s)
  | _ => Raise (no_attribute v "splitlines")
  end.

(** [base64.b64decode(s, validate=validate)] for a [str]: the text is encoded
    as ASCII, which raises a [ValueError], then given to [a2b_base64]. *)
Definition b64decode (s : str) (validate : bool) : Res bytes :=
  match encode_ascii s with
  | None => Raise (ValueError (lit "string argument should contain only ASCII characters"))
  | Some data =>
      match a2b_base64 data validate with
      | inl out => Ret out
      | inr msg => Raise (BinasciiError msg)
      end
  end.

(** ** [json.dumps] with its defaults: [ensure_ascii], [", "] and [": "] *)

Definition utf16_escape (c : N) : str := lit "\u" ++ hex4 c.

Definition dumps_char (c : N) : str :=
  if c =? 34 then [92; 34]
  else if c =? 92 then [92; 92]
  else if c =? 10 then lit "\n"
  else if c =? 13 then lit "\r"
  else if c =? 9 then lit "\t"
  else if c =? 8 then lit "\b"
  else if c =? 12 then lit "\f"
  else if in_range 32 126 c then [c]
  else if c <? 65536 then utf16_escape c
  else
    let v := c - 65536 in
    utf16_escape (N.lor 55296 (N.land (N.shiftr v 10) 1023))
    ++ utf16_escape (N.lor 56320 (N.land v 1023)).

Definition dumps_str (s : str) : str := [34] ++ flat_map dumps_char s ++ [34].

Fixpoint json_dumps (v : json) : str :=
  match v with
  | JNull => lit "null"
  | JBool true => lit "true"
  | JBool false => lit "false"
  | JInt z => dec z
  | JFloat f => float_text f
  | JStr s => dumps_str s
  | JList l => lit "[" ++ join (lit ", ") (map json_dumps l) ++ lit "]"
  | JObject kv =>
      lit "{"
      ++ join (lit ", ")
           (map (fun p => dumps_str (fst p) ++ lit ": " ++ json_dumps (snd p)) kv)
      ++ lit "}"
  end.


(** ** The world outside the program *)

(** Why [subprocess.run] cannot start a command: an argument holds a NUL
    character, an argument cannot be encoded for the operating system, or the
    system refuses (no such program, no permission, arguments too long). *)
Inductive start_failure :=
| EmbeddedNull
| NotEncodable (msg : str)
| OSFailure (msg : str).

(** The exception [subprocess.run] raises then, before any process exists:
    a [ValueError], a [UnicodeEncodeError] (a [ValueError] too) or an
    [OSError]; none of them is a [CalledProcessError]. *)
Definition start_exception (f : start_failure) : exn :=
  match f with
  | EmbeddedNull => ValueError (lit "embedded null byte")
  | NotEncodable msg => ValueError msg
  | OSFailure msg => OtherException msg
  end.

(** What [subprocess.run(..., capture_output=True, check=True)] gives: the
    captured standard output of a process that exits with 0, a
    [CalledProcessError] with its text and the captured standard error, or
    no process at all. *)
Inductive proc :=
| Completed (stdout : bytes)
| NonZeroExit (msg : str) (stderr : bytes)
| NotStarted (f : start_failure).

Record World := {
  (** [gh auth status] exits with 0 *)
  gh_auth_status : bool;
  (** [gh api args...] *)
  gh_api : list str -> proc;
  (** [json.loads] on bytes *)
  json_loads : bytes -> Res json;
  (** [str(v)] for a float, a list or a dict *)
  str_of_object : json -> str
}.

(** The processes a call starts, in order. *)
Inductive call :=
| AuthStatus
| GhApi (args : list str).

Definition M (A : Type) : Type := list call -> Res A * list call.

Definition ret {A} (a : A) : M A := fun t => (Ret a, t).

Definition raise {A} (e : exn) : M A := fun t => (Raise e, t).

Definition bind {A B} (m : M A) (k : A -> M B) : M B :=
  fun t =>
    match m t with
    | (Ret a, t') => k a t'
    | (Raise e, t') => (Raise e, t')
    end.

(** The body of a [try]: its outcome is handed to the [except] clauses. *)
Definition try {A} (m : M A) : M (Res A) :=
  fun t => let (r, t') := m t in (Ret r, t').

Definition lift {A} (r : Res A) : M A := fun t => (r, t).

Notation "x <- m ;; k" := (bind m (fun x => k))
  (at level 61, m at next level, right associativity) : py_scope.

Section Program.

Variable w : World.

(** [str(v)], which is what an f-string writes for [v]. *)
Definition py_str (v : json) : str :=
  match v with
  | JStr s => s
  | JNull => lit "None"
  | JBool true => lit "True"
  | JBool false => lit "False"
  | JInt z => dec z
  | _ => str_of_object w v
  end.

(** [run_gh_api_command(args)] with [check=True]: the callers read only
    [stdout] of the completed process. A command that cannot be started
    raises, and no process is recorded. *)
Definition run_gh_api_command (args : list str) : M bytes :=
  fun t =>
    match gh_api w args with
    | Completed stdout => (Ret stdout, t ++ [GhApi args])
    | NonZeroExit msg stderr => (Raise (CalledProcessError msg stderr), t ++ [GhApi args])
    | NotStarted f => (Raise (start_exception f), t)
    end.

Definition is_authenticated : M bool :=
  fun t => (Ret (gh_auth_status w), t ++ [AuthStatus]).

(** The wrapper that [require_auth] returns; [fn] is the call of the wrapped
    function on the wrapper's arguments. *)
Definition require_auth (fn : M str) : M str :=
  ok <- is_authenticated ;;
  if negb ok then ret (lit "Error: User is not authenticated")
  else fn.

Definition _get_default_branch (owner repo : str) : M json :=
  r <- try (run_gh_api_command [lit "repos/" ++ owner ++ lit "/" ++ repo]) ;;
  match r with
  | Raise (CalledProcessError _ _) => ret JNull
  | Raise e => raise e
  | Ret stdout =>
      match (repo_data <~ json_loads w stdout ;;
             py_get repo_data (lit "default_branch") JNull) with
      | Ret v => ret v
      | Raise _ => ret JNull
      end
  end.

(** *** [list_tree] *)

(** Lines 62-64: [resolved_ref]. *)
Definition resolved_ref (owner repo : str) (ref : option str) : M json :=
  match ref with
  | Some r =>
      if negb (is_empty r) then ret (JStr r)
      else
        v <- _get_default_branch owner repo ;;
        ret (if truthy v then v else JStr (lit "main"))
  | None =>
      v <- _get_default_branch owner repo ;;
      ret (if truthy v then v else JStr (lit "main"))
  end.

Definition tree_args (owner repo : str) (ref : json) : list str :=
  [lit "repos/" ++ owner ++ lit "/" ++ repo ++ lit "/git/trees/" ++ py_str ref;
   lit "--method"; lit "GET"; lit "-F"; lit "recursive=1"].

(** Lines 85-87: the filter on [path]. *)
Definition filter_path (path : option str) (entries : json) : Res json :=
  match path with
  | Some p =>
      if negb (is_empty p) then
        let prefix := lstrip_slash p in
        l <~ py_iter entries ;;
        kept <~ filterM (fun e => v <~ py_get e (lit "path") (JStr []) ;;
                                  py_startswith v prefix) l ;;
        Ret (JList kept)
      else Ret entries
  | None => Ret entries
  end.

(** Lines 89-92: the filter on [include]. *)
Definition filter_include (include : str) (entries : json) : Res json :=
  if str_eqb include (lit "files") then
    l <~ py_iter entries ;;
    kept <~ filterM (fun e => t <~ py_get e (lit "type") JNull ;;
                              Ret (py_eq_str t (lit "blob"))) l ;;
    Ret (JList kept)
  else if str_eqb include (lit "dirs") then
    l <~ py_iter entries ;;
    kept <~ filterM (fun e => t <~ py_get e (lit "type") JNull ;;
                              Ret (py_eq_str t (lit "tree"))) l ;;
    Ret (JList kept)
  else Ret entries.

(** Lines 96-110: what the loop appends for one entry. *)
Definition mapped_entry (e : json) : Res json :=
  t <~ py_get e (lit "type") JNull ;;
  if py_eq_str t (lit "tree") then
    p <~ py_get e (lit "path") JNull ;;
    Ret (JObject [(lit "path", p); (lit "type", JStr (lit "directory"))])
  else
    p <~ py_get e (lit "path") JNull ;;
    sz <~ py_get e (lit "size") JNull ;;
    Ret (JObject [(lit "path", p); (lit "type", JStr (lit "file")); (lit "bytes", sz)]).

(** Lines 94-110: [mapped]. *)
Definition mapped (entries : json) : Res (list json) :=
  l <~ py_iter entries ;;
  mapM mapped_entry l.

(** Lines 112-116: [response]. *)
Definition response (ref : json) (entries : list json) : json :=
  JObject [(lit "ref", ref);
           (lit "count", JInt (Z.of_nat (List.length entries)));
           (lit "entries", JList entries)].

(** Lines 80-117, from the decoded [data] on. *)
Definition tree_of_data (ref : json) (path : option str) (include : str)
    (data : json) : Res str :=
  has_tree <~ py_contains (lit "tree") data ;;
  if negb has_tree then
    Ret (json_dumps (JObject [(lit "error", JStr (lit "No tree in response"));
                              (lit "raw", data)]))
  else
    entries <~ py_getitem data (lit "tree") ;;
    entries <~ filter_path path entries ;;
    entries <~ filter_include include entries ;;
    m <~ mapped entries ;;
    Ret (json_dumps (response ref m)).

(** The function that [@require_auth] wraps. *)
Definition list_tree_wrapped (owner repo : str) (ref path : option str)
    (include : str) : M str :=
  ref' <- resolved_ref owner repo ref ;;
  r <- try (run_gh_api_command (tree_args owner repo ref')) ;;
  match r with
  | Raise (CalledProcessError _ stderr) =>
      ret (lit "Error running gh command: " ++ bytes_repr stderr)
  | Raise e => raise e
  | Ret stdout =>
      match json_loads w stdout with
      | Raise (JSONDecodeError msg) => ret (lit "Error decoding JSON: " ++ msg)
      | Raise e => raise e
      | Ret data => lift (tree_of_data ref' path include data)
      end
  end.

Definition list_tree (owner repo : str) (ref path : option str)
    (include : str) : M str :=
  require_auth (list_tree_wrapped owner repo ref path include).

(** *** [read_file] *)

Definition raw_header : list str :=
  [lit "-H"; lit "Accept: application/vnd.github.raw"].

(** Lines 137-138: the path always begins with a slash. *)
Definition normalized_path (path : str) : str :=
  if negb (startswith path (lit "/")) then lit "/" ++ path else path.

(** Lines 143-145 and 157-159: [api_path]. *)
Definition api_path (owner repo path : str) (ref : option str) : str :=
  let p := lit "repos/" ++ owner ++ lit "/" ++ repo ++ lit "/contents/" ++ path in
  match ref with
  | Some r => if negb (is_empty r) then p ++ lit "?ref=" ++ r else p
  | None => p
  end.

(** Lines 173-186: no [content] in the response. *)
Definition fallback_download (data : json) : M str :=
  download_url <- lift (py_get data (lit "download_url") JNull) ;;
  if truthy download_url then
    match download_url with
    | JStr url =>
        r <- try (run_gh_api_command (raw_header ++ [url])) ;;
        match r with
        | Raise (CalledProcessError _ stderr) =>
            ret (lit "Error fetching raw content: " ++ bytes_repr stderr)
        | Raise e => raise e
        | Ret stdout => ret (decode_utf8_replace stdout)
        end
    | _ =>
        (* subprocess.run refuses an argument that is not a string *)
        raise (TypeError (lit "expected str, bytes or os.PathLike object, not "
                          ++ type_name download_url))
    end
  else ret (lit "Error: No 'content' key found in response").

(** Lines 194-205: from [content_b64] to the text. *)
Definition decode_b64_content (content_b64 : json) : Res str :=
  lines <~ py_splitlines content_b64 ;;
  let normalized_b64 := join [] lines in
  match b64decode normalized_b64 true with
  | Raise (BinasciiError _) =>
      match b64decode normalized_b64 false with
      | Raise e => Ret (lit "Error decoding base64: " ++ exn_str e)
      | Ret decoded_bytes => Ret (decode_utf8_replace decoded_bytes)
      end
  | Raise e => Raise e
  | Ret decoded_bytes => Ret (decode_utf8_replace decoded_bytes)
  end.

(** Lines 170-205: the body of the last [try]. *)
Definition decode_content (data : json) : M str :=
  content_b64 <- lift (py_get data (lit "content") JNull) ;;
  match content_b64 with
  | JNull => fallback_download data
  | _ =>
      encoding <- lift (py_get data (lit "encoding") JNull) ;;
      if match encoding with JNull => false | _ => negb (py_eq_str encoding (lit "base64")) end
      then ret (lit "Error: Unexpected encoding '" ++ py_str encoding ++ lit "'")
      else lift (decode_b64_content content_b64)
  end.

(** The function that [@require_auth] wraps. The standard output is always
    bytes (the process is run without text mode), so line 154 is never
    reached. *)
Definition read_file_wrapped (owner repo path : str) (ref : option str)
    (raw : bool) : M str :=
  let path := normalized_path path in
  r <- try (if raw then
              stdout <- run_gh_api_command (raw_header ++ [api_path owner repo path ref]) ;;
              ret (inl (decode_utf8_replace stdout))
            else
              stdout <- run_gh_api_command [api_path owner repo path ref] ;;
              ret (inr stdout)) ;;
  match r with
  | Raise (CalledProcessError _ stderr) =>
      ret (lit "Error running gh command: " ++ bytes_repr stderr)
  | Raise e => raise e
  | Ret (inl text) => ret text
  | Ret (inr stdout) =>
      match json_loads w stdout with
      | Raise (JSONDecodeError msg) => ret (lit "Error decoding JSON: " ++ msg)
      | Raise e => raise e
      | Ret data =>
          r <- try (decode_content data) ;;
          match r with
          | Raise (BinasciiError msg) => ret (lit "Error decoding base64: " ++ msg)
          | Raise e => raise e
          | Ret text => ret text
          end
      end
  end.

Definition read_file (owner repo path : str) (ref : option str) (raw : bool) : M str :=
  require_auth (read_file_wrapped owner repo path ref raw).

End Program.

(** ** Worlds for the examples

    A [gh] client that answers from a table, and a [json.loads] that knows
    the documents of a table by their text. *)

Fixpoint args_eqb (a b : list str) : bool :=
  match a, b with
  | [], [] => true
  | x :: a', y :: b' => str_eqb x y && args_eqb a' b'
  | _, _ => false
  end.

Fixpoint api_table (tbl : list (list str * proc)) (args : list str) : proc :=
  match tbl with
  | [] => NonZeroExit (lit "Command returned non-zero exit status 1.")
            (lit "gh: Not Found (HTTP 404)")
  | (a, p) :: tbl' => if args_eqb a args then p else api_table tbl' args
  end.

Fixpoint loads_table (tbl : list json) (text : bytes) : Res json :=
  match tbl with
  | [] => Raise (JSONDecodeError (lit "Expecting value: line 1 column 1 (char 0)"))
  | v :: tbl' => if str_eqb text (json_dumps v) then Ret v else loads_table tbl' text
  end.

Definition table_world (auth : bool) (tbl : list (list str * json)) : World :=
  {| gh_auth_status := auth;
     gh_api := api_table (map (fun p => (fst p, Completed (json_dumps (snd p)))) tbl);
     json_loads := loads_table (map snd tbl);
     str_of_object := fun _ => [] |}.

Definition acme_tree : json :=
  JObject [(lit "tree",
            JList [JObject [(lit "path", JStr (lit "lib"));
                            (lit "type", JStr (lit "tree"))];
                   JObject [(lit "path", JStr (lit "lib/a.go"));
                            (lit "type", JStr (lit "blob"));
                            (lit "size", JInt 10)]])].

Definition acme_readme : json :=
  JObject [(lit "content", JStr (lit "aGVsbG8=" ++ [10]));
           (lit "encoding", JStr (lit "base64"))].

(** The repository acme/widgets: default branch main, the tree of the
    scenario, a README, a directory src (the contents API answers with an
    array for a directory) and a file too large to be inlined. *)
Definition acme_table : list (list str * json) :=
  [([lit "repos/acme/widgets"],
    JObject [(lit "default_branch", JStr (lit "main"))]);
   ([lit "repos/acme/widgets/git/trees/main";
     lit "--method"; lit "GET"; lit "-F"; lit "recursive=1"],
    acme_tree);
   ([lit "repos/acme/widgets/contents//README.md"], acme_readme);
   ([lit "repos/acme/widgets/contents//src"], JList []);
   ([lit "repos/acme/widgets/contents//big.bin"],
    JObject [(lit "download_url", JStr (lit "https://raw.example/big.bin"))]);
   ([lit "-H"; lit "Accept: application/vnd.github.raw";
     lit "https://raw.example/big.bin"], JInt 42);
   ([lit "repos/acme/widgets/contents//none"], JObject []);
   ([lit "repos/acme/gone/git/trees/main";
     lit "--method"; lit "GET"; lit "-F"; lit "recursive=1"], JNull)].

Definition acme : World := table_world true acme_table.

(** The world [w] with the rule of [subprocess.run] for a NUL character: a
    command with one in an argument is not started. *)
Definition refusing_nul (w : World) : World :=
  {| gh_auth_status := gh_auth_status w;
     gh_api := fun args =>
                 if existsb (existsb (N.eqb 0)) args then NotStarted EmbeddedNull
                 else gh_api w args;
     json_loads := json_loads w;
     str_of_object := str_of_object w |}.

Definition logged_out : World := table_world false acme_table.

(** ** What the specification says, where it is compared with the code *)

(** "after stripping a single leading slash" *)
Definition spec_strip_single_slash (s : str) : str :=
  match s with
  | 47 :: s' => s'
  | _ => s
  end.

(** The path of a tree entry, the empty string when it has none. *)
Definition entry_path (e : json) : str :=
  match e with
  | JObject kv =>
      match dict_get (lit "path") kv with
      | Some (JStr s) => s
      | _ => []
      end
  | _ => []
  end.

(** "keep only entries whose path starts with the path string after
    stripping a single leading slash" *)
Definition spec_filter_path (path : str) (entries : list json) : list json :=
  filter (fun e => startswith (entry_path e) (spec_strip_single_slash path)) entries.

(** The value of a field of an entry, [None] when it has none. *)
Definition field (kv : list (str * json)) (k : string) : json :=
  match dict_get (lit k) kv with
  | Some v => v
  | None => JNull
  end.

(** "tree-type entries map to {path, kind: directory}; all other entries map
    to {path, kind: file, size_bytes: reported size}" *)
Definition spec_mapped_entry (kv : list (str * json)) : json :=
  if py_eq_str (field kv "type") (lit "tree")
  then JObject [(lit "path", field kv "path"); (lit "kind", JStr (lit "directory"))]
  else JObject [(lit "path", field kv "path"); (lit "kind", JStr (lit "file"));
                (lit "size_bytes", field kv "size")].



(** A response without content whose download URL is the empty string. *)
Definition blank_response : list (str * json) :=
  [(lit "name", JStr (lit "blank")); (lit "download_url", JStr [])].

(** "{ref: resolved, count: 1, entries: [{path: lib, kind: directory}]}" *)
Definition spec_scenario_result (ref : json) : json :=
  JObject [(lit "ref", ref); (lit "count", JInt 1);
           (lit "entries",
            JList [JObject [(lit "path", JStr (lit "lib"));
                            (lit "kind", JStr (lit "directory"))]])].

(** ** Predicates of the statements *)

(** A projected entry keeps the data model's invariant: a directory has no
    size field (key [bytes]), a file has one. *)
Definition entry_invariant (e : json) : Prop :=
  exists kv, e = JObject kv /\
    ((dict_get (lit "type") kv = Some (JStr (lit "directory"))
      /\ dict_has (lit "bytes") kv = false)
     \/ (dict_get (lit "type") kv = Some (JStr (lit "file"))
         /\ dict_has (lit "bytes") kv = true)).

(** A tree entry as the hosting API sends it: an object whose path, when it
    has one, is a string. *)
Definition path_is_str (e : json) : Prop :=
  exists kv, e = JObject kv /\
    (dict_get (lit "path") kv = None \/ exists s, dict_get (lit "path") kv = Some (JStr s)).

(** What lines 96-110 build from an entry that is an object. *)
Definition projected_entry (kv : list (str * json)) : json :=
  if py_eq_str (field kv "type") (lit "tree")
  then JObject [(lit "path", field kv "path"); (lit "type", JStr (lit "directory"))]
  else JObject [(lit "path", field kv "path"); (lit "type", JStr (lit "file"));
                (lit "bytes", field kv "size")].

(** The results of [list_tree] that report an error. *)
Definition tree_error_result (s : str) : Prop :=
  s = lit "Error: User is not authenticated"
  \/ (exists stderr, s = lit "Error running gh command: " ++ bytes_repr stderr)
  \/ (exists msg, s = lit "Error decoding JSON: " ++ msg)
  \/ (exists data, s = json_dumps (JObject [(lit "error", JStr (lit "No tree in response"));
                                            (lit "raw", data)])).

(** ** Startup *)

(** How [main] ends: a line was printed and it returned, or [mcp.run()] was
    entered. *)
Inductive main_outcome :=
| Printed (line : str)
| ServerRan.

Section Startup.

Variable w : World.

(** Whether the [gh] program can be started at all: when it cannot,
    [subprocess.run] raises [FileNotFoundError] before any process exists. *)
Variable installed : bool.

(** [gh_command_exists()]: the command is run with [check=False], so a
    non-zero exit is a return code, not an exception. *)
Definition gh_command_exists : M bool :=
  fun t =>
    if installed then
      match gh_api w [lit "--version"] with
      | Completed _ => (Ret true, t ++ [GhApi [lit "--version"]])
      | NonZeroExit _ _ => (Ret false, t ++ [GhApi [lit "--version"]])
      | NotStarted f => (Raise (start_exception f), t)
      end
    else
      (Raise (OtherException (lit "[Errno 2] No such file or directory: 'gh'")), t).

Definition main : M main_outcome :=
  found <- gh_command_exists ;;
  if negb found then ret (Printed (lit "Error: gh command not found"))
  else
    ok <- is_authenticated w ;;
    if negb ok then ret (Printed (lit "Error: User is not authenticated"))
    else ret ServerRan.

End Startup.

(** ** Predicates of the further properties *)

(** The characters the lenient decoder reads: the alphabet and the pad. *)
Definition b64_significant (c : N) : bool :=
  (c =? 61) || match table_a2b_base64 c with Some _ => true | None => false end.

Definition is_ascii (s : str) : bool := forallb (fun c => c <? 128) s.

(** The type field of a tree entry, [None] when it has none. *)
Definition entry_type (e : json) : json :=
  match e with
  | JObject kv => field kv "type"
  | _ => JNull
  end.

(** The condition of the comprehension of line 87, under the test of line 85. *)
Definition path_kept (path : option str) (e : json) : bool :=
  match path with
  | Some p => if is_empty p then true else startswith (entry_path e) (lstrip_slash p)
  | None => true
  end.

(** The conditions of the comprehensions of lines 90 and 92, under the tests
    of lines 89 and 91. *)
Definition kind_kept (include : str) (e : json) : bool :=
  if str_eqb include (lit "files") then py_eq_str (entry_type e) (lit "blob")
  else if str_eqb include (lit "dirs") then py_eq_str (entry_type e) (lit "tree")
  else true.

(** What the loop of lines 95-110 appends for an entry that is an object. *)
Definition project (e : json) : json :=
  match e with
  | JObject kv => projected_entry kv
  | _ => e
  end.

(** The encodings the decode pipeline goes on with: none reported, or
    "base64". *)
Definition encoding_accepted (kv : list (str * json)) : Prop :=
  dict_get (lit "encoding") kv = None
  \/ dict_get (lit "encoding") kv = Some JNull
  \/ dict_get (lit "encoding") kv = Some (JStr (lit "base64")).

(** No content in the response: no such field, or [null]. *)
Definition no_content (kv : list (str * json)) : Prop :=
  dict_get (lit "content") kv = None \/ dict_get (lit "content") kv = Some JNull.

(** No usable download URL: no such field, or a value that is false. *)
Definition no_download_url (kv : list (str * json)) : Prop :=
  dict_get (lit "download_url") kv = None
  \/ exists v, dict_get (lit "download_url") kv = Some v /\ truthy v = false.

(** An acme repository whose metadata names the default branch trunk, and one
    whose metadata has no default branch. *)
Definition trunk_world : World :=
  table_world true
    [([lit "repos/acme/widgets"], JObject [(lit "default_branch", JStr (lit "trunk"))]);
     ([lit "repos/acme/bare"], JObject [(lit "name", JStr (lit "bare"))]);
     ([lit "repos/acme/widgets/contents//notes.txt"],
      JObject [(lit "content", JStr (lit "aGVs bG8=")); (lit "encoding", JNull)]);
     ([lit "repos/acme/widgets/contents//odd.txt"],
      JObject [(lit "content", JStr (lit "hello")); (lit "encoding", JStr (lit "none"))]);
     ([lit "repos/acme/widgets/contents//empty"],
      JObject [(lit "content", JNull); (lit "download_url", JStr [])]);
     ([lit "repos/acme/widgets/contents//blank"], JObject blank_response);
     ([lit "repos/acme/widgets/git/trees/v1";
       lit "--method"; lit "GET"; lit "-F"; lit "recursive=1"],
      JObject [(lit "message", JStr (lit "Not Found"))])].

(** A world whose commands succeed with a text that is not JSON. *)
Definition garbled : World :=
  {| gh_auth_status := true;
     gh_api := fun _ => Completed (lit "<html>");
     json_loads := loads_table [];
     str_of_object := fun _ => [] |}.

(** The two shapes of a projected entry. *)
Definition is_directory_entry (e : json) : Prop :=
  exists p, e = JObject [(lit "path", p); (lit "type", JStr (lit "directory"))].

Definition is_file_entry (e : json) : Prop :=
  exists p sz, e = JObject [(lit "path", p); (lit "type", JStr (lit "file"));
                            (lit "bytes", sz)].

Definition only_slashes (p : str) : bool := forallb (N.eqb 47) p.


(** A tree with a directory, two files and a submodule. *)
Definition mixed_tree : list json :=
  [JObject [(lit "path", JStr (lit "src")); (lit "type", JStr (lit "tree"))];
   JObject [(lit "path", JStr (lit "src/a.txt")); (lit "type", JStr (lit "blob"));
            (lit "size", JInt 3)];
   JObject [(lit "path", JStr (lit "doc.md")); (lit "type", JStr (lit "blob"));
            (lit "size", JInt 7)];
   JObject [(lit "path", JStr (lit "vendor/lib")); (lit "type", JStr (lit "commit"))]].

(** * Properties *)

(** ** Strings *)

Lemma str_eqb_refl (a : str) : str_eqb a a = true.
Proof.
  induction a as [|x a IH]; simpl; [reflexivity|].
  now rewrite N.eqb_refl, IH.
Qed.

Lemma str_eqb_eq (a b : str) : str_eqb a b = true <-> a = b.
Proof.
  split; [|intros ->; apply str_eqb_refl].
  revert b; induction a as [|x a IH]; intros [|y b]; simpl; try discriminate; auto.
  intros H; apply andb_true_iff in H as [Hx Hab].
  apply N.eqb_eq in Hx; subst y. now rewrite (IH b Hab).
Qed.

Lemma str_eqb_neq (a b : str) : a <> b -> str_eqb a b = false.
Proof.
  intros H; destruct (str_eqb a b) eqn:E; [|reflexivity].
  now apply str_eqb_eq in E.
Qed.

(** ** The authentication gate *)

Lemma require_auth_denied (w : World) (fn : M str) (t : list call) :
  gh_auth_status w = false ->
  require_auth w fn t = (Ret (lit "Error: User is not authenticated"), t ++ [AuthStatus]).
Proof.
  intros H. unfold require_auth, bind, is_authenticated. now rewrite H.
Qed.

Lemma require_auth_granted (w : World) (fn : M str) (t : list call) :
  gh_auth_status w = true ->
  require_auth w fn t = fn (t ++ [AuthStatus]).
Proof.
  intros H. unfold require_auth, bind, is_authenticated. now rewrite H.
Qed.

(** C5: when the status probe reports an invalid session, [list_tree] and
    [read_file] return exactly "Error: User is not authenticated", and the
    only process started is the probe itself: no [gh api] call is made. *)
Theorem unauthenticated_short_circuit (w : World) (owner repo fpath : str)
    (ref path : option str) (include : str) (raw : bool) (t : list call) :
  gh_auth_status w = false ->
  list_tree w owner repo ref path include t
  = (Ret (lit "Error: User is not authenticated"), t ++ [AuthStatus])
  /\ read_file w owner repo fpath ref raw t
     = (Ret (lit "Error: User is not authenticated"), t ++ [AuthStatus]).
Proof.
  intros H; split; unfold list_tree, read_file; now apply require_auth_denied.
Qed.

Lemma unauthenticated_short_circuit_witness :
  gh_auth_status logged_out = false
  /\ list_tree logged_out (lit "acme") (lit "widgets") None None (lit "all") []
     = (Ret (lit "Error: User is not authenticated"), [AuthStatus])
  /\ read_file logged_out (lit "acme") (lit "widgets") (lit "/README.md") None false []
     = (Ret (lit "Error: User is not authenticated"), [AuthStatus]).
Proof.
  split; [reflexivity|].
  apply (unauthenticated_short_circuit logged_out (lit "acme") (lit "widgets")
           (lit "/README.md") None None (lit "all") false []).
  reflexivity.
Defined.

(** ** The filter on [include] *)

Lemma filter_include_other (include : str) (entries : json) :
  include <> lit "files" -> include <> lit "dirs" ->
  filter_include include entries = Ret entries.
Proof.
  intros Hf Hd. unfold filter_include.
  now rewrite (str_eqb_neq _ _ Hf), (str_eqb_neq _ _ Hd).
Qed.

(** C10: an [include] value other than "files" and "dirs" applies no kind
    filter: the entries pass unchanged and without error, and the whole call
    behaves exactly as with include = "all" (same result, same processes). *)
Theorem include_unrecognized_as_all (w : World) (owner repo : str)
    (ref path : option str) (include : str) (t : list call) :
  include <> lit "files" -> include <> lit "dirs" ->
  (forall entries, filter_include include entries = Ret entries)
  /\ list_tree w owner repo ref path include t
     = list_tree w owner repo ref path (lit "all") t.
Proof.
  intros Hf Hd.
  assert (Hsame : forall entries,
             filter_include include entries = filter_include (lit "all") entries).
  { intros entries. rewrite (filter_include_other include entries Hf Hd).
    reflexivity. }
  split; [intros entries; now apply filter_include_other|].
  unfold list_tree, require_auth, list_tree_wrapped, bind, try, lift, tree_of_data.
  destruct (is_authenticated w t) as [[ok|e] t0]; [|reflexivity].
  destruct (negb ok); [reflexivity|].
  destruct (resolved_ref w owner repo ref t0) as [[r|e] t1]; [|reflexivity].
  destruct (run_gh_api_command w (tree_args w owner repo r) t1) as [[out|e] t2];
    [|reflexivity].
  destruct (json_loads w out) as [data|e]; [|reflexivity].
  destruct (py_contains (lit "tree") data) as [has|e]; [|reflexivity]; simpl.
  destruct (negb has); [reflexivity|].
  destruct (py_getitem data (lit "tree")) as [x|e]; [|reflexivity]; simpl.
  destruct (filter_path path x) as [y|e]; [|reflexivity]; simpl.
  now rewrite Hsame.
Qed.

Lemma include_unrecognized_as_all_witness :
  (forall entries, filter_include (lit "everything") entries = Ret entries)
  /\ list_tree acme (lit "acme") (lit "widgets") None None (lit "everything") []
     = list_tree acme (lit "acme") (lit "widgets") None None (lit "all") [].
Proof.
  apply (include_unrecognized_as_all acme); vm_compute; discriminate.
Defined.

(** ** Comprehensions and loops *)

Lemma filterM_filter (cond : json -> Res bool) (f : json -> bool) (l : list json) :
  Forall (fun e => cond e = Ret (f e)) l ->
  filterM cond l = Ret (filter f l).
Proof.
  induction 1 as [|e l He _ IH]; simpl; [reflexivity|].
  rewrite He; simpl. rewrite IH; simpl. reflexivity.
Qed.

Lemma mapM_map (f : json -> Res json) (g : json -> json) (l : list json) :
  Forall (fun e => f e = Ret (g e)) l ->
  mapM f l = Ret (map g l).
Proof.
  induction 1 as [|e l He _ IH]; simpl; [reflexivity|].
  rewrite He; simpl. rewrite IH; simpl. reflexivity.
Qed.

Lemma mapM_Forall (f : json -> Res json) (P : json -> Prop) :
  (forall e x, f e = Ret x -> P x) ->
  forall l xs, mapM f l = Ret xs -> Forall P xs.
Proof.
  intros Hf. induction l as [|e l IH]; simpl; intros xs H.
  - injection H as <-. constructor.
  - destruct (f e) as [x|] eqn:Ex; [|discriminate]. simpl in H.
    destruct (mapM f l) as [rest|]; [|discriminate]. simpl in H.
    injection H as <-. constructor; eauto.
Qed.

(** ** Projection of the entries *)

Lemma mapped_entry_object (kv : list (str * json)) :
  mapped_entry (JObject kv) = Ret (projected_entry kv).
Proof.
  unfold mapped_entry, projected_entry, field; simpl.
  destruct (py_eq_str _ _); reflexivity.
Qed.

Lemma mapped_entry_invariant (e x : json) :
  mapped_entry e = Ret x -> entry_invariant x.
Proof.
  destruct e as [| | | | | |kv]; try discriminate.
  rewrite mapped_entry_object. intros H; injection H as <-.
  unfold projected_entry.
  destruct (py_eq_str _ _); eexists; (split; [reflexivity|]);
    [left|right]; split; reflexivity.
Qed.

Lemma mapped_objects (kvs : list (list (str * json))) :
  mapped (JList (map JObject kvs)) = Ret (map projected_entry kvs).
Proof.
  unfold mapped; simpl.
  rewrite (mapM_map mapped_entry
             (fun e => match e with JObject kv => projected_entry kv | _ => e end)).
  - now rewrite map_map.
  - apply Forall_forall. intros e He. apply in_map_iff in He as [kv [<- _]].
    apply mapped_entry_object.
Qed.

(** What [tree_of_data] returns when the response has a tree. *)
Lemma tree_of_data_tree (ref : json) (path : option str) (include : str)
    (kv : list (str * json)) (entries e1 e2 : json) (m : list json) :
  dict_get (lit "tree") kv = Some entries ->
  filter_path path entries = Ret e1 ->
  filter_include include e1 = Ret e2 ->
  mapped e2 = Ret m ->
  tree_of_data ref path include (JObject kv) = Ret (json_dumps (response ref m)).
Proof.
  intros Ht H1 H2 Hm. unfold tree_of_data; simpl.
  unfold dict_has. rewrite Ht; simpl.
  now rewrite H1; simpl; rewrite H2; simpl; rewrite Hm.
Qed.

(** How a call of [list_tree] runs once the session is valid and the ref is
    resolved. *)
Lemma list_tree_fetched (w : World) (owner repo : str) (ref path : option str)
    (include : str) (t t1 : list call) (ref' : json) (out : bytes) (data : json) :
  gh_auth_status w = true ->
  resolved_ref w owner repo ref (t ++ [AuthStatus]) = (Ret ref', t1) ->
  gh_api w (tree_args w owner repo ref') = Completed out ->
  json_loads w out = Ret data ->
  list_tree w owner repo ref path include t
  = (tree_of_data ref' path include data, t1 ++ [GhApi (tree_args w owner repo ref')]).
Proof.
  intros Ha Hr Hg Hj. unfold list_tree. rewrite (require_auth_granted _ _ _ Ha).
  unfold list_tree_wrapped, bind, try, run_gh_api_command, lift.
  now rewrite Hr, Hg, Hj.
Qed.

(** C1 (as amended): every surviving entry that is an object is projected to
    {path, type: "directory"} without a size when its type is "tree", and to
    {path, type: "file", bytes: reported size} otherwise (the keys are
    [type] and [bytes]); for the tree of the scenario and include = "dirs",
    [list_tree] returns the serialization of
    {ref: resolved ref, count: 1, entries: [{path: "lib", type: "directory"}]}. *)
Theorem list_tree_projection :
  (forall ref path include kv entries e1 kvs,
      dict_get (lit "tree") kv = Some entries ->
      filter_path path entries = Ret e1 ->
      filter_include include e1 = Ret (JList (map JObject kvs)) ->
      tree_of_data ref path include (JObject kv)
      = Ret (json_dumps (response ref (map projected_entry kvs))))
  /\ (forall w owner repo ref t t1 ref' out,
         gh_auth_status w = true ->
         resolved_ref w owner repo ref (t ++ [AuthStatus]) = (Ret ref', t1) ->
         gh_api w (tree_args w owner repo ref') = Completed out ->
         json_loads w out = Ret acme_tree ->
         list_tree w owner repo ref None (lit "dirs") t
         = (Ret (json_dumps
                   (JObject [(lit "ref", ref'); (lit "count", JInt 1);
                             (lit "entries",
                              JList [JObject [(lit "path", JStr (lit "lib"));
                                              (lit "type", JStr (lit "directory"))]])])),
            t1 ++ [GhApi (tree_args w owner repo ref')])).
Proof.
  split.
  - intros ref path include kv entries e1 kvs Ht H1 H2.
    eapply tree_of_data_tree; eauto using mapped_objects.
  - intros w owner repo ref t t1 ref' out Ha Hr Hg Hj.
    rewrite (list_tree_fetched w owner repo ref None (lit "dirs") t t1 ref' out
               acme_tree Ha Hr Hg Hj).
    reflexivity.
Qed.

Lemma list_tree_projection_witness :
  list_tree acme (lit "acme") (lit "widgets") None None (lit "dirs") []
  = (Ret (json_dumps
            (JObject [(lit "ref", JStr (lit "main")); (lit "count", JInt 1);
                      (lit "entries",
                       JList [JObject [(lit "path", JStr (lit "lib"));
                                       (lit "type", JStr (lit "directory"))]])])),
     [AuthStatus; GhApi [lit "repos/acme/widgets"]]
     ++ [GhApi (tree_args acme (lit "acme") (lit "widgets") (JStr (lit "main")))]).
Proof.
  apply (proj2 list_tree_projection acme (lit "acme") (lit "widgets") None []
           [AuthStatus; GhApi [lit "repos/acme/widgets"]] (JStr (lit "main"))
           (json_dumps acme_tree)); reflexivity.
Defined.

(** C1 (as stated) fails: the code writes the keys [type] and [bytes], not
    [kind] and [size_bytes]: the entry of "lib" is not projected to
    {path, kind: "directory"}, and the result of the scenario is not the
    serialization the claim gives. *)
Lemma list_tree_projection_counterexample :
  mapped_entry (JObject [(lit "path", JStr (lit "lib")); (lit "type", JStr (lit "tree"))])
  <> Ret (spec_mapped_entry [(lit "path", JStr (lit "lib")); (lit "type", JStr (lit "tree"))])
  /\ fst (list_tree acme (lit "acme") (lit "widgets") None None (lit "dirs") [])
     <> Ret (json_dumps (spec_scenario_result (JStr (lit "main")))).
Proof.
  split; vm_compute; discriminate.
Qed.

(** ** The result of [list_tree] *)

Lemma tree_of_data_cases (ref : json) (path : option str) (include : str)
    (data : json) (s : str) :
  tree_of_data ref path include data = Ret s ->
  s = json_dumps (JObject [(lit "error", JStr (lit "No tree in response"));
                           (lit "raw", data)])
  \/ exists m, s = json_dumps (response ref m) /\ Forall entry_invariant m.
Proof.
  unfold tree_of_data. intros H.
  destruct (py_contains (lit "tree") data) as [has|]; [|discriminate]; simpl in H.
  destruct has; simpl in H; [|left; now injection H as <-].
  destruct (py_getitem data (lit "tree")) as [x|]; [|discriminate]; simpl in H.
  destruct (filter_path path x) as [y|]; [|discriminate]; simpl in H.
  destruct (filter_include include y) as [z|]; [|discriminate]; simpl in H.
  destruct (mapped z) as [m|] eqn:Em; [|discriminate]; simpl in H.
  injection H as <-. right. exists m. split; [reflexivity|].
  unfold mapped in Em. destruct (py_iter z) as [l|]; [|discriminate]; simpl in Em.
  exact (mapM_Forall mapped_entry entry_invariant mapped_entry_invariant l m Em).
Qed.

(** Every way a call of [list_tree] returns: an error result, or the
    serialization of [response] for the ref that was resolved and fetched. *)
Lemma list_tree_cases (w : World) (owner repo : str) (ref path : option str)
    (include : str) (t t' : list call) (s : str) :
  list_tree w owner repo ref path include t = (Ret s, t') ->
  tree_error_result s
  \/ exists ref' t1 m,
       resolved_ref w owner repo ref (t ++ [AuthStatus]) = (Ret ref', t1)
       /\ t' = t1 ++ [GhApi (tree_args w owner repo ref')]
       /\ s = json_dumps (response ref' m)
       /\ Forall entry_invariant m.
Proof.
  unfold list_tree, require_auth, bind, is_authenticated. unfold tree_error_result.
  destruct (gh_auth_status w); simpl.
  2:{ unfold ret. intros H; injection H as <- _. left. left. reflexivity. }
  unfold list_tree_wrapped, bind, try, lift, run_gh_api_command.
  destruct (resolved_ref w owner repo ref _) as [[r|e] t1]; [|discriminate].
  destruct (gh_api w _) as [out|msg stderr|f].
  - destruct (json_loads w out) as [data|e].
    + intros H. injection H as H <-.
      destruct (tree_of_data_cases _ _ _ _ _ H) as [->|[m [-> Hm]]].
      * left. right. right. right. now exists data.
      * right. exists r, t1, m. auto.
    + destruct e; try discriminate.
      unfold ret. intros H; injection H as <- _. left. right. right. left. eauto.
  - unfold ret. intros H; injection H as <- _. left. right. left. eauto.
  - destruct f; discriminate.
Qed.

(** C9: a result of [list_tree] is an error result, or it is the
    serialization of an object whose count field is the length of its entries
    sequence and whose entries keep the invariant: a directory entry has no
    size field, a file entry has one. *)
Theorem tree_result_invariant (w : World) (owner repo : str) (ref path : option str)
    (include : str) (t t' : list call) (s : str) :
  list_tree w owner repo ref path include t = (Ret s, t') ->
  tree_error_result s
  \/ exists kv entries,
       s = json_dumps (JObject kv)
       /\ dict_get (lit "entries") kv = Some (JList entries)
       /\ dict_get (lit "count") kv = Some (JInt (Z.of_nat (List.length entries)))
       /\ Forall entry_invariant entries.
Proof.
  intros H. destruct (list_tree_cases _ _ _ _ _ _ _ _ _ H) as [He|[r [t1 [m [_ [_ [-> Hm]]]]]]].
  - now left.
  - right. eexists. exists m. split; [reflexivity|]. split; [reflexivity|].
    split; [reflexivity|exact Hm].
Qed.

Lemma tree_result_invariant_witness :
  tree_error_result
    (json_dumps (response (JStr (lit "main"))
                   [JObject [(lit "path", JStr (lit "lib"));
                             (lit "type", JStr (lit "directory"))]]))
  \/ exists kv entries,
       json_dumps (response (JStr (lit "main"))
                     [JObject [(lit "path", JStr (lit "lib"));
                               (lit "type", JStr (lit "directory"))]])
       = json_dumps (JObject kv)
       /\ dict_get (lit "entries") kv = Some (JList entries)
       /\ dict_get (lit "count") kv = Some (JInt (Z.of_nat (List.length entries)))
       /\ Forall entry_invariant entries.
Proof.
  apply (tree_result_invariant acme (lit "acme") (lit "widgets") None None (lit "dirs") []
           [AuthStatus; GhApi [lit "repos/acme/widgets"];
            GhApi (tree_args acme (lit "acme") (lit "widgets") (JStr (lit "main")))]).
  reflexivity.
Defined.

(** ** The filter on [path] *)

Lemma path_filter_cond (prefix : str) (e : json) :
  path_is_str e ->
  (v <~ py_get e (lit "path") (JStr []) ;; py_startswith v prefix)
  = Ret (startswith (entry_path e) prefix).
Proof.
  intros [kv [-> [H|[s H]]]]; unfold entry_path; simpl; now rewrite H.
Qed.

(** C4 (as amended): a non-empty path filter keeps exactly, and in order, the
    entries whose path starts with the filter string after all its leading
    slashes are stripped; the match is on the characters, so "src" keeps
    both "src/a.txt" and "src2/b.txt"; "//src" is compared as "src". *)
Theorem filter_path_prefix (p : str) (l : list json) :
  p <> [] ->
  Forall path_is_str l ->
  filter_path (Some p) (JList l)
  = Ret (JList (filter (fun e => startswith (entry_path e) (lstrip_slash p)) l))
  /\ filter_path (Some (lit "src"))
       (JList [JObject [(lit "path", JStr (lit "src/a.txt"))];
               JObject [(lit "path", JStr (lit "lib/c.txt"))];
               JObject [(lit "path", JStr (lit "src2/b.txt"))]])
     = Ret (JList [JObject [(lit "path", JStr (lit "src/a.txt"))];
                   JObject [(lit "path", JStr (lit "src2/b.txt"))]])
  /\ lstrip_slash (lit "//src") = lit "src".
Proof.
  intros Hp Hl. split; [|split; reflexivity].
  unfold filter_path. destruct p as [|c p]; [contradiction|]. simpl is_empty. simpl negb.
  cbv iota. simpl py_iter. unfold rbind at 1.
  rewrite (filterM_filter _ (fun e => startswith (entry_path e) (lstrip_slash (c :: p)))).
  - reflexivity.
  - eapply Forall_impl; [|exact Hl]. intros e He. now apply path_filter_cond.
Qed.

Lemma filter_path_prefix_witness :
  filter_path (Some (lit "//src"))
    (JList [JObject [(lit "path", JStr (lit "src/a.txt"))];
            JObject [(lit "type", JStr (lit "blob"))]])
  = Ret (JList [JObject [(lit "path", JStr (lit "src/a.txt"))]]).
Proof.
  refine (proj1 (filter_path_prefix (lit "//src")
                   [JObject [(lit "path", JStr (lit "src/a.txt"))];
                    JObject [(lit "type", JStr (lit "blob"))]] _ _)).
  - discriminate.
  - repeat constructor.
    + eexists; split; [reflexivity|]. right. eexists; reflexivity.
    + eexists; split; [reflexivity|]. left. reflexivity.
Defined.

(** C4 (as stated) fails: with the filter "//src" the code keeps the entry
    "src/a.txt", which does not start with "/src", the filter after one
    leading slash is stripped. *)
Lemma filter_path_prefix_counterexample :
  filter_path (Some (lit "//src")) (JList [JObject [(lit "path", JStr (lit "src/a.txt"))]])
  <> Ret (JList (spec_filter_path (lit "//src")
                   [JObject [(lit "path", JStr (lit "src/a.txt"))]])).
Proof.
  vm_compute. discriminate.
Qed.

(** ** The default branch resolver *)





(** ** [read_file] *)

(** How a call of [read_file] in structured mode runs once the session is
    valid, the command succeeds and its output is decoded. *)
Lemma read_file_structured (w : World) (owner repo path : str) (ref : option str)
    (t : list call) (out : bytes) (data : json) :
  gh_auth_status w = true ->
  gh_api w [api_path owner repo (normalized_path path) ref] = Completed out ->
  json_loads w out = Ret data ->
  read_file w owner repo path ref false t
  = match decode_content w data
            (t ++ [AuthStatus; GhApi [api_path owner repo (normalized_path path) ref]]) with
    | (Raise (BinasciiError msg), t') => (Ret (lit "Error decoding base64: " ++ msg), t')
    | other => other
    end.
Proof.
  intros Ha Hg Hj. unfold read_file. rewrite (require_auth_granted _ _ _ Ha).
  unfold read_file_wrapped, bind, try, run_gh_api_command, ret.
  rewrite Hg, Hj. rewrite <- app_assoc. simpl app.
  destruct (decode_content w data _) as [[text|e] t']; [reflexivity|].
  destruct e; reflexivity.
Qed.





(** C2: the code raises where the claim promises a string. For a directory
    the contents API answers with a JSON array, and [read_file] raises an
    [AttributeError] at line 170; [list_tree] raises a [TypeError] at line 80
    when the output of the tree command is the JSON document null. *)
Theorem exception_reaches_host :
  read_file acme (lit "acme") (lit "widgets") (lit "src") None false []
  = (Raise (AttributeError (lit "'list' object has no attribute 'get'")),
     [AuthStatus; GhApi [lit "repos/acme/widgets/contents//src"]])
  /\ list_tree acme (lit "acme") (lit "gone") (Some (lit "main")) None (lit "all") []
     = (Raise (TypeError (lit "argument of type 'NoneType' is not iterable")),
        [AuthStatus;
         GhApi [lit "repos/acme/gone/git/trees/main";
                lit "--method"; lit "GET"; lit "-F"; lit "recursive=1"]]).
Proof.
  split; reflexivity.
Qed.

(** ** Normalization of the content *)

Lemma join_empty_cons (p : str) (rest : list str) :
  join [] (p :: rest) = p ++ join [] rest.
Proof.
  destruct rest; simpl; [now rewrite app_nil_r|reflexivity].
Qed.

Lemma join_splitlines_from (n : nat) :
  forall s cur, (List.length s <= n)%nat ->
    join [] (splitlines_from cur s) = cur ++ filter not_linebreak s.
Proof.
  induction n as [|n IH]; intros s cur Hlen.
  - destruct s; [|simpl in Hlen; lia]. simpl.
    destruct cur; simpl; [reflexivity|now rewrite app_nil_r].
  - destruct s as [|c rest].
    + simpl. destruct cur; simpl; [reflexivity|now rewrite app_nil_r].
    + simpl in Hlen. cbn [splitlines_from filter].
      destruct (c =? 13) eqn:Ecr.
      * apply N.eqb_eq in Ecr; subst c. cbn [not_linebreak is_linebreak negb N.eqb Pos.eqb orb].
        destruct rest as [|c' rest'].
        -- rewrite join_empty_cons. rewrite (IH [] [] ltac:(simpl; lia)). reflexivity.
        -- simpl in Hlen. destruct (c' =? 10) eqn:Elf.
           ++ apply N.eqb_eq in Elf; subst c'.
              rewrite join_empty_cons, (IH rest' [] ltac:(lia)). reflexivity.
           ++ rewrite join_empty_cons, (IH (c' :: rest') [] ltac:(simpl; lia)). reflexivity.
      * destruct (is_linebreak c) eqn:Elb.
        -- unfold not_linebreak at 1. rewrite Elb. cbn [negb].
           rewrite join_empty_cons, (IH rest [] ltac:(lia)). reflexivity.
        -- unfold not_linebreak at 1. rewrite Elb. cbn [negb].
           rewrite (IH rest (cur ++ [c]) ltac:(lia)). now rewrite <- app_assoc.
Qed.

(** [[""]join(s.splitlines())] removes the line boundaries of [s] and
    nothing else. *)
Lemma join_splitlines (s : str) :
  join [] (splitlines s) = filter not_linebreak s.
Proof.
  unfold splitlines. now rewrite (join_splitlines_from (List.length s) s []).
Qed.

(** C3: the normalization removes the line boundaries only; a space and a
    tab are not line boundaries, so they reach the strict decoder: for the
    content "aGVs bG8=" the normalized text still has its space, the strict
    decode raises, and it is the lenient decode that gives "hello". A
    whitespace character outside ASCII, such as the no-break space (160),
    is kept too, and then the decode raises a [ValueError] that no handler of
    [read_file] catches. *)
Theorem normalization_keeps_spaces :
  (forall s, join [] (splitlines s) = filter not_linebreak s)
  /\ not_linebreak 32 = true
  /\ not_linebreak 9 = true
  /\ join [] (splitlines (lit "aGVs bG8=")) = lit "aGVs bG8="
  /\ b64decode (lit "aGVs bG8=") true
     = Raise (BinasciiError (lit "Only base64 data is allowed"))
  /\ decode_b64_content (JStr (lit "aGVs bG8=")) = Ret (lit "hello")
  /\ decode_b64_content (JStr (lit "aGVs" ++ [160] ++ lit "bG8="))
     = Raise (ValueError (lit "string argument should contain only ASCII characters")).
Proof.
  split; [exact join_splitlines|]. repeat split; reflexivity.
Qed.

(** ** Base64: decoding what was encoded *)

Lemma bytes_all_spec (P : N -> bool) :
  bytes_all P = true -> forall b, b < 256 -> P b = true.
Proof.
  unfold bytes_all. intros H b Hb.
  rewrite forallb_forall in H. apply H.
  rewrite <- (N2Nat.id b). apply in_map. apply in_seq. lia.
Qed.

Lemma bytes_all2_spec (P : N -> N -> bool) :
  bytes_all2 P = true -> forall a b, a < 256 -> b < 256 -> P a b = true.
Proof.
  unfold bytes_all2. intros H a b Ha Hb.
  apply (bytes_all_spec (P a)); [|exact Hb].
  exact (bytes_all_spec (fun a => bytes_all (P a)) H a Ha).
Qed.

Lemma table_b2a_base64_range (v : N) : 43 <= table_b2a_base64 v <= 122.
Proof.
  unfold table_b2a_base64.
  destruct (N.ltb_spec v 26); [lia|].
  destruct (N.ltb_spec v 52); [lia|].
  destruct (N.ltb_spec v 62); [lia|].
  destruct (v =? 62); lia.
Qed.

Lemma table_b2a_base64_not_pad (v : N) : (table_b2a_base64 v =? 61) = false.
Proof.
  apply N.eqb_neq. unfold table_b2a_base64.
  destruct (N.ltb_spec v 26); [lia|].
  destruct (N.ltb_spec v 52); [lia|].
  destruct (N.ltb_spec v 62); [lia|].
  destruct (v =? 62); lia.
Qed.

Lemma table_a2b_b2a (v : N) :
  v < 64 -> table_a2b_base64 (table_b2a_base64 v) = Some v.
Proof.
  intros Hv.
  assert (H : forallb (fun v => match table_a2b_base64 (table_b2a_base64 v) with
                                | Some v' => v' =? v
                                | None => false
                                end) (map N.of_nat (seq 0 64)) = true)
    by (vm_compute; reflexivity).
  rewrite forallb_forall in H.
  assert (Hin : In v (map N.of_nat (seq 0 64))).
  { rewrite <- (N2Nat.id v). apply in_map. apply in_seq. lia. }
  specialize (H v Hin).
  destruct (table_a2b_base64 (table_b2a_base64 v)) as [v'|]; [|discriminate].
  apply N.eqb_eq in H. now subst.
Qed.

(** The 6-bit groups are below 64, and the decoder's shifts put the octets
    back together: checked on every octet and every pair of octets. *)
Lemma sextet_facts (a b : N) :
  a < 256 -> b < 256 ->
  sextet0 a < 64 /\ sextet1 a b < 64 /\ sextet2 a b < 64 /\ sextet3 a < 64
  /\ N.lor (N.shiftl (sextet0 a) 2) (N.shiftr (sextet1 a b) 4) mod 256 = a
  /\ N.land (sextet1 a b) 15 = N.shiftr b 4
  /\ N.shiftr (sextet2 a b) 2 = N.land a 15
  /\ N.lor (N.shiftl (N.shiftr a 4) 4) (N.land a 15) mod 256 = a
  /\ N.lor (N.shiftl (N.land (sextet2 a b) 3) 6) (sextet3 b) mod 256 = b.
Proof.
  intros Ha Hb.
  assert (H : bytes_all2 (fun a b =>
                (sextet0 a <? 64) && (sextet1 a b <? 64) && (sextet2 a b <? 64)
                && (sextet3 a <? 64)
                && (N.lor (N.shiftl (sextet0 a) 2) (N.shiftr (sextet1 a b) 4) mod 256 =? a)
                && (N.land (sextet1 a b) 15 =? N.shiftr b 4)
                && (N.shiftr (sextet2 a b) 2 =? N.land a 15)
                && (N.lor (N.shiftl (N.shiftr a 4) 4) (N.land a 15) mod 256 =? a)
                && (N.lor (N.shiftl (N.land (sextet2 a b) 3) 6) (sextet3 b) mod 256 =? b))
              = true)
    by (vm_compute; reflexivity).
  pose proof (bytes_all2_spec _ H a b Ha Hb) as E.
  repeat (apply andb_true_iff in E; destruct E as [E ?]).
  repeat match goal with
         | H : (_ <? _) = true |- _ => apply N.ltb_lt in H
         | H : (_ =? _) = true |- _ => apply N.eqb_eq in H
         end.
  repeat split; assumption.
Qed.

(** One step of the decoder on a character of the alphabet. *)
Lemma a2b_loop_data (strict : bool) (q lc pads : N) (acc rest : bytes) (v : N) :
  v < 64 ->
  a2b_loop strict q lc pads false acc (table_b2a_base64 v :: rest)
  = if q =? 0 then a2b_loop strict 1 v 0 false acc rest
    else if q =? 1 then
      a2b_loop strict 2 (N.land v 15) 0 false
        (acc ++ [N.lor (N.shiftl lc 2) (N.shiftr v 4) mod 256]) rest
    else if q =? 2 then
      a2b_loop strict 3 (N.land v 3) 0 false
        (acc ++ [N.lor (N.shiftl lc 4) (N.shiftr v 2) mod 256]) rest
    else
      a2b_loop strict 0 0 0 false (acc ++ [N.lor (N.shiftl lc 6) v mod 256]) rest.
Proof.
  intros Hv. cbn [a2b_loop].
  rewrite table_b2a_base64_not_pad, (table_a2b_b2a v Hv), andb_false_r.
  reflexivity.
Qed.

(** A group of three octets is decoded to itself. *)
Lemma a2b_loop_group (strict : bool) (acc rest : bytes) (a b c : N) :
  a < 256 -> b < 256 -> c < 256 ->
  a2b_loop strict 0 0 0 false acc
    (table_b2a_base64 (sextet0 a) :: table_b2a_base64 (sextet1 a b)
     :: table_b2a_base64 (sextet2 b c) :: table_b2a_base64 (sextet3 c) :: rest)
  = a2b_loop strict 0 0 0 false (acc ++ [a; b; c]) rest.
Proof.
  intros Ha Hb Hc.
  destruct (sextet_facts a b Ha Hb) as [H0 [H1 [_ [_ [E1 [G1 _]]]]]].
  destruct (sextet_facts b c Hb Hc) as [_ [_ [H2 [_ [_ [_ [G2 [Eb E3]]]]]]]].
  destruct (sextet_facts c c Hc Hc) as [_ [_ [_ [H3 _]]]].
  rewrite (a2b_loop_data strict 0 0 0 acc _ _ H0). cbn [N.eqb].
  rewrite (a2b_loop_data strict 1 _ 0 acc _ _ H1). cbn [N.eqb Pos.eqb].
  rewrite E1.
  rewrite (a2b_loop_data strict 2 _ 0 _ _ _ H2). cbn [N.eqb Pos.eqb].
  rewrite G1, G2, Eb.
  rewrite (a2b_loop_data strict 3 _ 0 _ _ _ H3). cbn [N.eqb Pos.eqb].
  rewrite E3. now rewrite <- !app_assoc.
Qed.

Lemma a2b_loop_b64encode (strict : bool) (n : nat) :
  forall bs acc, (List.length bs <= n)%nat -> is_bytes bs ->
    a2b_loop strict 0 0 0 false acc (b64encode bs) = inl (acc ++ bs).
Proof.
  induction n as [|n IH]; intros bs acc Hlen Hbs.
  - destruct bs; [|simpl in Hlen; lia]. simpl. now rewrite app_nil_r.
  - destruct bs as [|a [|b [|c rest]]].
    + simpl. now rewrite app_nil_r.
    + (* one octet: two characters and two pads *)
      apply Forall_inv in Hbs. cbn [b64encode].
      destruct (sextet_facts a 0 Hbs ltac:(lia)) as [H0 [H1 [_ [_ [E1 _]]]]].
      rewrite (a2b_loop_data strict 0 0 0 acc _ _ H0). cbn [N.eqb].
      rewrite (a2b_loop_data strict 1 _ 0 acc _ _ H1). cbn [N.eqb Pos.eqb].
      rewrite E1. destruct strict; reflexivity.
    + (* two octets: three characters and one pad *)
      pose proof (Forall_inv Hbs) as Ha.
      pose proof (Forall_inv (Forall_inv_tail Hbs)) as Hb. cbn [b64encode].
      destruct (sextet_facts a b Ha Hb) as [H0 [H1 [_ [_ [E1 [G1 _]]]]]].
      destruct (sextet_facts b 0 Hb ltac:(lia)) as [_ [_ [H2 [_ [_ [_ [G2 [Eb _]]]]]]]].
      rewrite (a2b_loop_data strict 0 0 0 acc _ _ H0). cbn [N.eqb].
      rewrite (a2b_loop_data strict 1 _ 0 acc _ _ H1). cbn [N.eqb Pos.eqb].
      rewrite E1.
      rewrite (a2b_loop_data strict 2 _ 0 _ _ _ H2). cbn [N.eqb Pos.eqb].
      rewrite G1, G2, Eb. rewrite <- app_assoc.
      destruct strict; reflexivity.
    + pose proof (Forall_inv Hbs) as Ha.
      pose proof (Forall_inv (Forall_inv_tail Hbs)) as Hb.
      pose proof (Forall_inv (Forall_inv_tail (Forall_inv_tail Hbs))) as Hc.
      pose proof (Forall_inv_tail (Forall_inv_tail (Forall_inv_tail Hbs))) as Hrest.
      cbn [b64encode]. rewrite (a2b_loop_group strict acc _ a b c Ha Hb Hc).
      simpl in Hlen. rewrite (IH rest (acc ++ [a; b; c]) ltac:(lia) Hrest).
      now rewrite <- app_assoc.
Qed.

Lemma b64encode_alphabet (bs : bytes) :
  Forall (fun c => 43 <= c <= 122) (b64encode bs).
Proof.
  assert (Hn : forall n bs, (List.length bs <= n)%nat ->
                 Forall (fun c => 43 <= c <= 122) (b64encode bs)).
  { induction n as [|n IH]; intros l Hlen.
    - destruct l; [constructor|simpl in Hlen; lia].
    - destruct l as [|a [|b [|c rest]]]; cbn [b64encode];
        repeat (constructor; [first [apply table_b2a_base64_range | lia]|]);
        try constructor.
      apply IH. simpl in Hlen. lia. }
  exact (Hn (List.length bs) bs (le_n _)).
Qed.

Lemma b64encode_ascii (bs : bytes) :
  encode_ascii (b64encode bs) = Some (b64encode bs).
Proof.
  unfold encode_ascii.
  replace (forallb (fun c => c <? 128) (b64encode bs)) with true; [reflexivity|].
  symmetry. apply forallb_forall. intros c Hc.
  pose proof (proj1 (Forall_forall _ _) (b64encode_alphabet bs) c Hc) as [Hlo Hhi].
  apply N.ltb_lt. lia.
Qed.

Lemma b64encode_no_linebreak (bs : bytes) :
  filter not_linebreak (b64encode bs) = b64encode bs.
Proof.
  apply forallb_filter_id. apply forallb_forall. intros c Hc.
  pose proof (proj1 (Forall_forall _ _) (b64encode_alphabet bs) c Hc) as [Hlo Hhi].
  unfold not_linebreak, is_linebreak.
  repeat match goal with
         | |- context [c =? ?k] =>
             replace (c =? k) with false by (symmetry; apply N.eqb_neq; lia)
         end.
  reflexivity.
Qed.

Lemma b64encode_no_leading_pad (bs : bytes) :
  match b64encode bs with c :: _ => c =? 61 | [] => false end = false.
Proof.
  destruct bs as [|a [|b [|c rest]]]; cbn [b64encode];
    [reflexivity|apply table_b2a_base64_not_pad..].
Qed.

(** The strict decode of an encoded text gives the bytes back. *)
Lemma b64decode_b64encode (bs : bytes) (validate : bool) :
  is_bytes bs -> b64decode (b64encode bs) validate = Ret bs.
Proof.
  intros Hbs. unfold b64decode, a2b_base64.
  rewrite b64encode_ascii, b64encode_no_leading_pad, andb_false_r.
  now rewrite (a2b_loop_b64encode validate (List.length bs) bs [] (le_n _) Hbs).
Qed.

(** ** UTF-8: the strict and the permissive decoder *)

Lemma all_some_replace (l : list (option N)) (s : str) :
  all_some l = Some s ->
  map (fun o => match o with Some c => c | None => 65533 end) l = s.
Proof.
  revert s; induction l as [|[c|] l IH]; simpl; intros s H.
  - now injection H as <-.
  - destruct (all_some l) as [s'|]; [|discriminate]. injection H as <-.
    now rewrite (IH s').
  - discriminate.
Qed.

Lemma decode_utf8_replace_valid (bs : bytes) (text : str) :
  decode_utf8_strict bs = Some text -> decode_utf8_replace bs = text.
Proof.
  apply all_some_replace.
Qed.

(** The decode pipeline on a content that is the base64 text of [bs], with
    line boundaries anywhere in it. *)
Lemma decode_b64_content_encoded (content : str) (bs : bytes) :
  is_bytes bs ->
  filter not_linebreak content = b64encode bs ->
  decode_b64_content (JStr content) = Ret (decode_utf8_replace bs).
Proof.
  intros Hbs Hc. unfold decode_b64_content. cbn [py_splitlines rbind].
  rewrite join_splitlines, Hc, (b64decode_b64encode bs true Hbs). reflexivity.
Qed.

(** C6: when the content field is the base64 text of a byte sequence that is
    valid UTF-8 (with line boundaries anywhere in it, as the API wraps it) and
    the encoding field is "base64", [read_file] in structured mode returns
    exactly the text of those bytes. The scenario of the specification, the
    content "aGVsbG8=" followed by a newline giving "hello", is the instance
    proved right after it. *)
Theorem base64_round_trip (w : World) (owner repo path : str) (ref : option str)
    (t : list call) (out : bytes) (kv : list (str * json)) (content : str)
    (bs : bytes) (text : str) :
  gh_auth_status w = true ->
  gh_api w [api_path owner repo (normalized_path path) ref] = Completed out ->
  json_loads w out = Ret (JObject kv) ->
  dict_get (lit "content") kv = Some (JStr content) ->
  dict_get (lit "encoding") kv = Some (JStr (lit "base64")) ->
  is_bytes bs ->
  filter not_linebreak content = b64encode bs ->
  decode_utf8_strict bs = Some text ->
  read_file w owner repo path ref false t
  = (Ret text,
     t ++ [AuthStatus; GhApi [api_path owner repo (normalized_path path) ref]]).
Proof.
  intros Ha Hg Hj Hc He Hbs Hb64 Htext.
  rewrite (read_file_structured w owner repo path ref t out (JObject kv) Ha Hg Hj).
  unfold decode_content, bind, lift. cbn [py_get]. rewrite Hc, He.
  cbn [py_eq_str]. rewrite str_eqb_refl. cbn [negb].
  rewrite (decode_b64_content_encoded content bs Hbs Hb64).
  now rewrite (decode_utf8_replace_valid bs text Htext).
Qed.

Lemma base64_round_trip_witness :
  read_file acme (lit "acme") (lit "widgets") (lit "/README.md") None false []
  = (Ret (lit "hello"),
     [] ++ [AuthStatus; GhApi [lit "repos/acme/widgets/contents//README.md"]]).
Proof.
  apply (base64_round_trip acme (lit "acme") (lit "widgets") (lit "/README.md") None []
           (json_dumps acme_readme)
           [(lit "content", JStr (lit "aGVsbG8=" ++ [10]));
            (lit "encoding", JStr (lit "base64"))]
           (lit "aGVsbG8=" ++ [10]) (lit "hello") (lit "hello"));
    try reflexivity.
  unfold is_bytes. repeat constructor.
Defined.

(** * Further properties of the code *)

(** ** How the calls run *)

(** A call of [list_tree] once the session is valid and the ref resolved:
    the tree command is started, and its outcome decides. *)
Lemma list_tree_run (w : World) (owner repo : str) (ref path : option str)
    (include : str) (t t1 : list call) (ref' : json) :
  gh_auth_status w = true ->
  resolved_ref w owner repo ref (t ++ [AuthStatus]) = (Ret ref', t1) ->
  list_tree w owner repo ref path include t
  = match gh_api w (tree_args w owner repo ref') with
    | NonZeroExit _ stderr =>
        (Ret (lit "Error running gh command: " ++ bytes_repr stderr),
         t1 ++ [GhApi (tree_args w owner repo ref')])
    | Completed out =>
        (match json_loads w out with
         | Ret data => tree_of_data ref' path include data
         | Raise (JSONDecodeError msg) => Ret (lit "Error decoding JSON: " ++ msg)
         | Raise e => Raise e
         end,
         t1 ++ [GhApi (tree_args w owner repo ref')])
    | NotStarted f => (Raise (start_exception f), t1)
    end.
Proof.
  intros Ha Hr. unfold list_tree. rewrite (require_auth_granted _ _ _ Ha).
  unfold list_tree_wrapped, bind, try, run_gh_api_command, lift, ret, raise.
  rewrite Hr.
  destruct (gh_api w _) as [out|msg stderr|f];
    [|reflexivity|destruct f; reflexivity].
  destruct (json_loads w out) as [data|e]; [reflexivity|].
  destruct e; reflexivity.
Qed.

(** A call of [read_file] in structured mode once the session is valid. *)
Lemma read_file_run (w : World) (owner repo path : str) (ref : option str)
    (t : list call) :
  gh_auth_status w = true ->
  read_file w owner repo path ref false t
  = match gh_api w [api_path owner repo (normalized_path path) ref] with
    | NonZeroExit _ stderr =>
        (Ret (lit "Error running gh command: " ++ bytes_repr stderr),
         t ++ [AuthStatus; GhApi [api_path owner repo (normalized_path path) ref]])
    | Completed out =>
        match json_loads w out with
        | Ret data =>
            match decode_content w data
                    (t ++ [AuthStatus;
                           GhApi [api_path owner repo (normalized_path path) ref]]) with
            | (Raise (BinasciiError msg), t') =>
                (Ret (lit "Error decoding base64: " ++ msg), t')
            | other => other
            end
        | Raise (JSONDecodeError msg) =>
            (Ret (lit "Error decoding JSON: " ++ msg),
             t ++ [AuthStatus; GhApi [api_path owner repo (normalized_path path) ref]])
        | Raise e =>
            (Raise e,
             t ++ [AuthStatus; GhApi [api_path owner repo (normalized_path path) ref]])
        end
    | NotStarted f => (Raise (start_exception f), t ++ [AuthStatus])
    end.
Proof.
  intros Ha.
  destruct (gh_api w [api_path owner repo (normalized_path path) ref])
    as [out|msg stderr|f] eqn:Hg.
  - destruct (json_loads w out) as [data|e] eqn:Hj.
    + exact (read_file_structured w owner repo path ref t out data Ha Hg Hj).
    + unfold read_file. rewrite (require_auth_granted _ _ _ Ha).
      unfold read_file_wrapped, bind, try, run_gh_api_command, ret, raise.
      rewrite Hg, Hj, <- app_assoc. destruct e; reflexivity.
  - unfold read_file. rewrite (require_auth_granted _ _ _ Ha).
    unfold read_file_wrapped, bind, try, run_gh_api_command, ret, raise.
    rewrite Hg, <- app_assoc. reflexivity.
  - unfold read_file. rewrite (require_auth_granted _ _ _ Ha).
    unfold read_file_wrapped, bind, try, run_gh_api_command, ret, raise.
    rewrite Hg. destruct f; reflexivity.
Qed.

(** A call of [read_file] in raw mode once the session is valid. *)
Lemma read_file_raw_run (w : World) (owner repo path : str) (ref : option str)
    (t : list call) :
  gh_auth_status w = true ->
  read_file w owner repo path ref true t
  = match gh_api w (raw_header ++ [api_path owner repo (normalized_path path) ref]) with
    | Completed out =>
        (Ret (decode_utf8_replace out),
         t ++ [AuthStatus;
               GhApi (raw_header ++ [api_path owner repo (normalized_path path) ref])])
    | NonZeroExit _ stderr =>
        (Ret (lit "Error running gh command: " ++ bytes_repr stderr),
         t ++ [AuthStatus;
               GhApi (raw_header ++ [api_path owner repo (normalized_path path) ref])])
    | NotStarted f => (Raise (start_exception f), t ++ [AuthStatus])
    end.
Proof.
  intros Ha. unfold read_file. rewrite (require_auth_granted _ _ _ Ha).
  unfold read_file_wrapped, bind, try, run_gh_api_command, ret, raise.
  rewrite <- app_assoc.
  match goal with |- context [gh_api w ?a] => destruct (gh_api w a) as [out|msg stderr|f] end;
    [reflexivity|reflexivity|destruct f; reflexivity].
Qed.

(** X1: in raw mode, with a valid session, [read_file] runs one command, [gh
    api] with the raw media type and the API path, and does not read its
    output as JSON: when the process exits with 0 the result is the
    permissive text of the output, when it exits with another status the
    result is the error string with the captured standard error, and when
    the command cannot be started the exception of [subprocess.run]
    propagates and no [gh api] process exists. *)
Theorem read_file_raw (w : World) (owner repo path : str) (ref : option str)
    (t : list call) :
  gh_auth_status w = true ->
  read_file w owner repo path ref true t
  = match gh_api w (raw_header ++ [api_path owner repo (normalized_path path) ref]) with
    | Completed out =>
        (Ret (decode_utf8_replace out),
         t ++ [AuthStatus;
               GhApi (raw_header ++ [api_path owner repo (normalized_path path) ref])])
    | NonZeroExit _ stderr =>
        (Ret (lit "Error running gh command: " ++ bytes_repr stderr),
         t ++ [AuthStatus;
               GhApi (raw_header ++ [api_path owner repo (normalized_path path) ref])])
    | NotStarted f => (Raise (start_exception f), t ++ [AuthStatus])
    end.
Proof.
  exact (read_file_raw_run w owner repo path ref t).
Qed.

Lemma read_file_raw_witness :
  read_file (refusing_nul acme) (lit "acme") (lit "widgets") (lit "missing.txt") None true []
  = (Ret (lit "Error running gh command: b'gh: Not Found (HTTP 404)'"),
     [AuthStatus;
      GhApi [lit "-H"; lit "Accept: application/vnd.github.raw";
             lit "repos/acme/widgets/contents//missing.txt"]])
  /\ read_file (refusing_nul acme) (lit "a" ++ [0]) (lit "r") (lit "p") None true []
     = (Raise (ValueError (lit "embedded null byte")), [AuthStatus]).
Proof.
  split.
  - exact (read_file_raw (refusing_nul acme) (lit "acme") (lit "widgets")
             (lit "missing.txt") None [] eq_refl).
  - exact (read_file_raw (refusing_nul acme) (lit "a" ++ [0]) (lit "r") (lit "p") None []
             eq_refl).
Defined.

Lemma startswith_empty (s : str) : startswith s [] = true.
Proof.
  destruct s; reflexivity.
Qed.

Lemma normalized_path_slash (path : str) :
  normalized_path (lit "/" ++ path) = lit "/" ++ path.
Proof.
  unfold normalized_path.
  change (startswith (lit "/" ++ path) (lit "/"))
    with ((47 =? 47) && startswith path []).
  now rewrite startswith_empty.
Qed.

(** X2: the leading slash of the file path is optional: the normalized path
    always begins with a slash, and [read_file] on a path and on the path
    with the slash put in front (when it has none) are the same call, in
    both modes. *)
Theorem read_file_leading_slash (w : World) (owner repo path : str)
    (ref : option str) (raw : bool) (t : list call) :
  startswith (normalized_path path) (lit "/") = true
  /\ (startswith path (lit "/") = false ->
      read_file w owner repo (lit "/" ++ path) ref raw t
      = read_file w owner repo path ref raw t).
Proof.
  split.
  - unfold normalized_path. destruct (startswith path (lit "/")) eqn:E; [exact E|].
    cbn [negb].
    change (startswith (lit "/" ++ path) (lit "/"))
      with ((47 =? 47) && startswith path []).
    now rewrite startswith_empty.
  - intros E.
    assert (Hn : normalized_path (lit "/" ++ path) = normalized_path path).
    { unfold normalized_path at 2. rewrite E. cbn [negb].
      apply normalized_path_slash. }
    unfold read_file, read_file_wrapped. now rewrite Hn.
Qed.

Lemma read_file_leading_slash_witness :
  read_file acme (lit "acme") (lit "widgets") (lit "/" ++ lit "README.md") None false []
  = read_file acme (lit "acme") (lit "widgets") (lit "README.md") None false [].
Proof.
  exact (proj2 (read_file_leading_slash acme (lit "acme") (lit "widgets")
                  (lit "README.md") None false []) eq_refl).
Defined.

(** ** The ref of [list_tree] *)



(** X4: when the metadata names a default branch (a non-empty string), a call
    without ref resolves to that branch; when the metadata is an object
    without the field, or the field is the empty string or null, it resolves
    to "main". *)
Theorem default_branch_resolution (w : World) (owner repo : str) (t : list call)
    (out : bytes) (kv : list (str * json)) :
  gh_api w [lit "repos/" ++ owner ++ lit "/" ++ repo] = Completed out ->
  json_loads w out = Ret (JObject kv) ->
  (forall b, b <> [] -> dict_get (lit "default_branch") kv = Some (JStr b) ->
     resolved_ref w owner repo None t
     = (Ret (JStr b), t ++ [GhApi [lit "repos/" ++ owner ++ lit "/" ++ repo]]))
  /\ (dict_get (lit "default_branch") kv = None
      \/ dict_get (lit "default_branch") kv = Some (JStr [])
      \/ dict_get (lit "default_branch") kv = Some JNull ->
      resolved_ref w owner repo None t
      = (Ret (JStr (lit "main")), t ++ [GhApi [lit "repos/" ++ owner ++ lit "/" ++ repo]])).
Proof.
  intros Hg Hj.
  assert (Hrun : resolved_ref w owner repo None t
                 = (Ret (let v := match dict_get (lit "default_branch") kv with
                                  | Some x => x
                                  | None => JNull
                                  end in
                         if truthy v then v else JStr (lit "main")),
                    t ++ [GhApi [lit "repos/" ++ owner ++ lit "/" ++ repo]])).
  { unfold resolved_ref, _get_default_branch, bind, try, run_gh_api_command, ret.
    rewrite Hg, Hj. reflexivity. }
  split.
  - intros b Hb Hd. rewrite Hrun, Hd. destruct b; [contradiction|reflexivity].
  - intros [Hd|[Hd|Hd]]; rewrite Hrun, Hd; reflexivity.
Qed.

Lemma default_branch_resolution_witness :
  resolved_ref trunk_world (lit "acme") (lit "widgets") None []
  = (Ret (JStr (lit "trunk")), [] ++ [GhApi [lit "repos/" ++ lit "acme" ++ lit "/" ++ lit "widgets"]])
  /\ resolved_ref trunk_world (lit "acme") (lit "bare") None []
     = (Ret (JStr (lit "main")), [] ++ [GhApi [lit "repos/" ++ lit "acme" ++ lit "/" ++ lit "bare"]]).
Proof.
  split.
  - refine (proj1 (default_branch_resolution trunk_world (lit "acme") (lit "widgets") []
                     (json_dumps (JObject [(lit "default_branch", JStr (lit "trunk"))]))
                     [(lit "default_branch", JStr (lit "trunk"))] eq_refl eq_refl)
              (lit "trunk") _ eq_refl).
    discriminate.
  - exact (proj2 (default_branch_resolution trunk_world (lit "acme") (lit "bare") []
                    (json_dumps (JObject [(lit "name", JStr (lit "bare"))]))
                    [(lit "name", JStr (lit "bare"))] eq_refl eq_refl)
             (or_introl eq_refl)).
Defined.

(** ** Error results *)

(** X5: when the command of the fetch exits with a non-zero status, both
    operations return "Error running gh command: " followed by the repr of
    the captured standard error, whatever [json.loads] would do: the output is
    not decoded. *)
Theorem command_failure_reported (w : World) (owner repo : str) (t : list call) :
  (forall ref path include t1 ref' msg stderr,
      gh_auth_status w = true ->
      resolved_ref w owner repo ref (t ++ [AuthStatus]) = (Ret ref', t1) ->
      gh_api w (tree_args w owner repo ref') = NonZeroExit msg stderr ->
      list_tree w owner repo ref path include t
      = (Ret (lit "Error running gh command: " ++ bytes_repr stderr),
         t1 ++ [GhApi (tree_args w owner repo ref')]))
  /\ (forall fpath ref msg stderr,
         gh_auth_status w = true ->
         gh_api w [api_path owner repo (normalized_path fpath) ref] = NonZeroExit msg stderr ->
         read_file w owner repo fpath ref false t
         = (Ret (lit "Error running gh command: " ++ bytes_repr stderr),
            t ++ [AuthStatus; GhApi [api_path owner repo (normalized_path fpath) ref]])).
Proof.
  split.
  - intros ref path include t1 ref' msg stderr Ha Hr Hg.
    now rewrite (list_tree_run w owner repo ref path include t t1 ref' Ha Hr), Hg.
  - intros fpath ref msg stderr Ha Hg.
    now rewrite (read_file_run w owner repo fpath ref t Ha), Hg.
Qed.

Lemma command_failure_reported_witness :
  list_tree acme (lit "acme") (lit "widgets") (Some (lit "dev")) None (lit "all") []
  = (Ret (lit "Error running gh command: b'gh: Not Found (HTTP 404)'"),
     ([] ++ [AuthStatus])
     ++ [GhApi (tree_args acme (lit "acme") (lit "widgets") (JStr (lit "dev")))])
  /\ read_file acme (lit "acme") (lit "widgets") (lit "nothing") None false []
     = (Ret (lit "Error running gh command: b'gh: Not Found (HTTP 404)'"),
        [] ++ [AuthStatus; GhApi [lit "repos/acme/widgets/contents//nothing"]]).
Proof.
  split.
  - exact (proj1 (command_failure_reported acme (lit "acme") (lit "widgets") [])
             (Some (lit "dev")) None (lit "all") ([] ++ [AuthStatus]) (JStr (lit "dev"))
             (lit "Command returned non-zero exit status 1.")
             (lit "gh: Not Found (HTTP 404)") eq_refl eq_refl eq_refl).
  - exact (proj2 (command_failure_reported acme (lit "acme") (lit "widgets") [])
             (lit "nothing") None
             (lit "Command returned non-zero exit status 1.")
             (lit "gh: Not Found (HTTP 404)") eq_refl eq_refl).
Defined.

(** X6: when the command succeeds and its output is not JSON, both
    operations return "Error decoding JSON: " followed by the text of the
    decode error, and start no further process. *)
Theorem json_failure_reported (w : World) (owner repo : str) (t : list call) :
  (forall ref path include t1 ref' out msg,
      gh_auth_status w = true ->
      resolved_ref w owner repo ref (t ++ [AuthStatus]) = (Ret ref', t1) ->
      gh_api w (tree_args w owner repo ref') = Completed out ->
      json_loads w out = Raise (JSONDecodeError msg) ->
      list_tree w owner repo ref path include t
      = (Ret (lit "Error decoding JSON: " ++ msg),
         t1 ++ [GhApi (tree_args w owner repo ref')]))
  /\ (forall fpath ref out msg,
         gh_auth_status w = true ->
         gh_api w [api_path owner repo (normalized_path fpath) ref] = Completed out ->
         json_loads w out = Raise (JSONDecodeError msg) ->
         read_file w owner repo fpath ref false t
         = (Ret (lit "Error decoding JSON: " ++ msg),
            t ++ [AuthStatus; GhApi [api_path owner repo (normalized_path fpath) ref]])).
Proof.
  split.
  - intros ref path include t1 ref' out msg Ha Hr Hg Hj.
    now rewrite (list_tree_run w owner repo ref path include t t1 ref' Ha Hr), Hg, Hj.
  - intros fpath ref out msg Ha Hg Hj.
    now rewrite (read_file_run w owner repo fpath ref t Ha), Hg, Hj.
Qed.

Lemma json_failure_reported_witness :
  list_tree garbled (lit "acme") (lit "widgets") (Some (lit "main")) None (lit "all") []
  = (Ret (lit "Error decoding JSON: " ++ lit "Expecting value: line 1 column 1 (char 0)"),
     ([] ++ [AuthStatus])
     ++ [GhApi (tree_args garbled (lit "acme") (lit "widgets") (JStr (lit "main")))])
  /\ read_file garbled (lit "acme") (lit "widgets") (lit "a.txt") None false []
     = (Ret (lit "Error decoding JSON: " ++ lit "Expecting value: line 1 column 1 (char 0)"),
        [] ++ [AuthStatus; GhApi [lit "repos/acme/widgets/contents//a.txt"]]).
Proof.
  split.
  - exact (proj1 (json_failure_reported garbled (lit "acme") (lit "widgets") [])
             (Some (lit "main")) None (lit "all") ([] ++ [AuthStatus]) (JStr (lit "main"))
             (lit "<html>") (lit "Expecting value: line 1 column 1 (char 0)")
             eq_refl eq_refl eq_refl eq_refl).
  - exact (proj2 (json_failure_reported garbled (lit "acme") (lit "widgets") [])
             (lit "a.txt") None (lit "<html>")
             (lit "Expecting value: line 1 column 1 (char 0)") eq_refl eq_refl eq_refl).
Defined.

(** X7: when the decoded response is an object without a tree field,
    [list_tree] returns the serialization of
    {error: "No tree in response", raw: the response}, whatever the path
    and include filters are: no filter is applied and nothing raises. *)
Theorem missing_tree_reported (w : World) (owner repo : str) (ref path : option str)
    (include : str) (t t1 : list call) (ref' : json) (out : bytes)
    (kv : list (str * json)) :
  gh_auth_status w = true ->
  resolved_ref w owner repo ref (t ++ [AuthStatus]) = (Ret ref', t1) ->
  gh_api w (tree_args w owner repo ref') = Completed out ->
  json_loads w out = Ret (JObject kv) ->
  dict_get (lit "tree") kv = None ->
  list_tree w owner repo ref path include t
  = (Ret (json_dumps (JObject [(lit "error", JStr (lit "No tree in response"));
                               (lit "raw", JObject kv)])),
     t1 ++ [GhApi (tree_args w owner repo ref')]).
Proof.
  intros Ha Hr Hg Hj Ht.
  rewrite (list_tree_run w owner repo ref path include t t1 ref' Ha Hr), Hg, Hj.
  unfold tree_of_data. cbn [py_contains rbind]. unfold dict_has. now rewrite Ht.
Qed.

Lemma missing_tree_reported_witness :
  list_tree trunk_world (lit "acme") (lit "widgets") (Some (lit "v1"))
    (Some (lit "src")) (lit "files") []
  = (Ret (json_dumps (JObject [(lit "error", JStr (lit "No tree in response"));
                               (lit "raw", JObject [(lit "message", JStr (lit "Not Found"))])])),
     ([] ++ [AuthStatus])
     ++ [GhApi (tree_args trunk_world (lit "acme") (lit "widgets") (JStr (lit "v1")))]).
Proof.
  exact (missing_tree_reported trunk_world (lit "acme") (lit "widgets") (Some (lit "v1"))
           (Some (lit "src")) (lit "files") [] ([] ++ [AuthStatus]) (JStr (lit "v1"))
           (json_dumps (JObject [(lit "message", JStr (lit "Not Found"))]))
           [(lit "message", JStr (lit "Not Found"))]
           eq_refl eq_refl eq_refl eq_refl eq_refl).
Defined.

(** ** The decode pipeline of [read_file] *)

(** X8: when the response has a content (any value but null) and reports an
    encoding that is a string other than "base64", [read_file] returns
    "Error: Unexpected encoding '...'" naming it; the content is not looked
    at and no further process is started. *)
Theorem unexpected_encoding_reported (w : World) (owner repo path : str)
    (ref : option str) (t : list call) (out : bytes) (kv : list (str * json))
    (content : json) (encoding : str) :
  gh_auth_status w = true ->
  gh_api w [api_path owner repo (normalized_path path) ref] = Completed out ->
  json_loads w out = Ret (JObject kv) ->
  dict_get (lit "content") kv = Some content ->
  content <> JNull ->
  dict_get (lit "encoding") kv = Some (JStr encoding) ->
  encoding <> lit "base64" ->
  read_file w owner repo path ref false t
  = (Ret (lit "Error: Unexpected encoding '" ++ encoding ++ lit "'"),
     t ++ [AuthStatus; GhApi [api_path owner repo (normalized_path path) ref]]).
Proof.
  intros Ha Hg Hj Hc Hnn He Hne.
  rewrite (read_file_structured w owner repo path ref t out (JObject kv) Ha Hg Hj).
  unfold decode_content, bind, lift. cbn [py_get]. rewrite Hc, He.
  cbn [py_eq_str]. rewrite (str_eqb_neq _ _ Hne). cbn [negb].
  destruct content; try contradiction; reflexivity.
Qed.

Lemma unexpected_encoding_reported_witness :
  read_file trunk_world (lit "acme") (lit "widgets") (lit "odd.txt") None false []
  = (Ret (lit "Error: Unexpected encoding '" ++ lit "none" ++ lit "'"),
     [] ++ [AuthStatus; GhApi [lit "repos/acme/widgets/contents//odd.txt"]]).
Proof.
  refine (unexpected_encoding_reported trunk_world (lit "acme") (lit "widgets")
            (lit "odd.txt") None []
            (json_dumps (JObject [(lit "content", JStr (lit "hello"));
                                  (lit "encoding", JStr (lit "none"))]))
            [(lit "content", JStr (lit "hello")); (lit "encoding", JStr (lit "none"))]
            (JStr (lit "hello")) (lit "none")
            eq_refl eq_refl eq_refl eq_refl _ eq_refl _); discriminate.
Defined.

(** X9: when the response has no content (no field, or null) and no usable
    download URL (no field, null, or the empty string), [read_file] returns
    exactly "Error: No 'content' key found in response" and starts no
    process for a download. *)
Theorem no_content_no_url (w : World) (owner repo path : str) (ref : option str)
    (t : list call) (out : bytes) (kv : list (str * json)) :
  gh_auth_status w = true ->
  gh_api w [api_path owner repo (normalized_path path) ref] = Completed out ->
  json_loads w out = Ret (JObject kv) ->
  no_content kv ->
  no_download_url kv ->
  read_file w owner repo path ref false t
  = (Ret (lit "Error: No 'content' key found in response"),
     t ++ [AuthStatus; GhApi [api_path owner repo (normalized_path path) ref]]).
Proof.
  intros Ha Hg Hj Hc Hu.
  rewrite (read_file_structured w owner repo path ref t out (JObject kv) Ha Hg Hj).
  unfold decode_content, bind, lift. cbn [py_get].
  assert (Hnull : match dict_get (lit "content") kv with Some x => x | None => JNull end
                  = JNull) by (destruct Hc as [-> | ->]; reflexivity).
  rewrite Hnull. unfold fallback_download, bind, lift. cbn [py_get].
  destruct Hu as [->|[v [-> Hv]]]; [reflexivity|]. now rewrite Hv.
Qed.

Lemma no_content_no_url_witness :
  read_file trunk_world (lit "acme") (lit "widgets") (lit "empty") None false []
  = (Ret (lit "Error: No 'content' key found in response"),
     [] ++ [AuthStatus; GhApi [lit "repos/acme/widgets/contents//empty"]]).
Proof.
  refine (no_content_no_url trunk_world (lit "acme") (lit "widgets") (lit "empty") None []
            (json_dumps (JObject [(lit "content", JNull); (lit "download_url", JStr [])]))
            [(lit "content", JNull); (lit "download_url", JStr [])]
            eq_refl eq_refl eq_refl _ _).
  - right. reflexivity.
  - right. exists (JStr []). split; reflexivity.
Defined.

(** ** The strict and the lenient decoder *)

(** What the strict decoder accepts, the lenient one decodes to the same
    bytes. *)
Lemma a2b_loop_strict_lenient (data : bytes) :
  forall q lc pads ps acc out,
    a2b_loop true q lc pads ps acc data = inl out ->
    a2b_loop false q lc pads ps acc data = inl out.
Proof.
  induction data as [|c rest IH]; intros q lc pads ps acc out H.
  - exact H.
  - cbn [a2b_loop] in *. cbn [andb] in *.
    destruct (c =? 61).
    + destruct ((2 <=? q) && (4 <=? q + (pads + 1))).
      * destruct (negb (is_empty rest)); [discriminate|exact H].
      * now apply IH.
    + destruct (table_a2b_base64 c) as [v|]; [|discriminate].
      destruct ps; [discriminate|].
      destruct (q =? 0); [now apply IH|].
      destruct (q =? 1); [now apply IH|].
      destruct (q =? 2); now apply IH.
Qed.

Lemma a2b_base64_strict_lenient (data out : bytes) :
  a2b_base64 data true = inl out -> a2b_base64 data false = inl out.
Proof.
  unfold a2b_base64. cbn [andb].
  destruct (match data with c :: _ => c =? 61 | [] => false end); [discriminate|].
  apply a2b_loop_strict_lenient.
Qed.

(** The lenient decoder passes over every character that is neither of the
    alphabet nor the pad. *)
Lemma a2b_loop_lenient_skips (data : bytes) :
  forall q lc pads ps acc,
    a2b_loop false q lc pads ps acc data
    = a2b_loop false q lc pads ps acc (filter b64_significant data).
Proof.
  induction data as [|c rest IH]; intros q lc pads ps acc; [reflexivity|].
  cbn [filter]. unfold b64_significant at 1.
  destruct (c =? 61) eqn:Epad.
  - cbn [orb a2b_loop]. rewrite Epad. cbn [andb].
    destruct ((2 <=? q) && (4 <=? q + (pads + 1))); [reflexivity|apply IH].
  - cbn [orb]. destruct (table_a2b_base64 c) as [v|] eqn:Ev.
    + cbn [a2b_loop]. rewrite Epad, Ev. cbn [andb].
      destruct (q =? 0); [apply IH|].
      destruct (q =? 1); [apply IH|].
      destruct (q =? 2); apply IH.
    + cbn [a2b_loop]. rewrite Epad, Ev. apply IH.
Qed.

Lemma a2b_base64_lenient_skips (data : bytes) :
  a2b_base64 data false = a2b_base64 (filter b64_significant data) false.
Proof.
  unfold a2b_base64. cbn [andb]. apply a2b_loop_lenient_skips.
Qed.

Lemma encode_ascii_is_ascii (s : str) :
  is_ascii s = true -> encode_ascii s = Some s.
Proof.
  unfold encode_ascii, is_ascii. now intros ->.
Qed.

(** The two outcomes of the decode pipeline on a string. *)
Lemma decode_b64_content_cases (content : str) :
  (is_ascii (filter not_linebreak content) = true ->
   decode_b64_content (JStr content)
   = Ret (match a2b_base64 (filter not_linebreak content) false with
          | inl decoded => decode_utf8_replace decoded
          | inr msg => lit "Error decoding base64: " ++ msg
          end))
  /\ (is_ascii (filter not_linebreak content) = false ->
      decode_b64_content (JStr content)
      = Raise (ValueError (lit "string argument should contain only ASCII characters"))).
Proof.
  unfold decode_b64_content. cbn [py_splitlines rbind]. rewrite join_splitlines.
  unfold b64decode. split; intros H.
  - rewrite (encode_ascii_is_ascii _ H).
    destruct (a2b_base64 (filter not_linebreak content) true) as [out|msg] eqn:Es.
    + now rewrite (a2b_base64_strict_lenient _ _ Es).
    + destruct (a2b_base64 (filter not_linebreak content) false); reflexivity.
  - unfold encode_ascii. unfold is_ascii in H. now rewrite H.
Qed.

(** X10: for a content whose text, line boundaries removed, is ASCII, the
    decode pipeline never raises, and its result is the one of the lenient
    decoder alone: the text of the bytes it decodes, or "Error decoding
    base64: " followed by its error. When a character outside ASCII is
    left, the pipeline raises a [ValueError]. *)
Theorem decode_pipeline_result (content : str) :
  (is_ascii (filter not_linebreak content) = true ->
   decode_b64_content (JStr content)
   = Ret (match a2b_base64 (filter not_linebreak content) false with
          | inl decoded => decode_utf8_replace decoded
          | inr msg => lit "Error decoding base64: " ++ msg
          end))
  /\ (is_ascii (filter not_linebreak content) = false ->
      decode_b64_content (JStr content)
      = Raise (ValueError (lit "string argument should contain only ASCII characters"))).
Proof.
  exact (decode_b64_content_cases content).
Qed.

Lemma decode_pipeline_result_witness :
  decode_b64_content (JStr (lit "aGVsb"))
  = Ret (lit "Error decoding base64: Invalid base64-encoded string: number of data characters (5) cannot be 1 more than a multiple of 4")
  /\ decode_b64_content (JStr (lit "aGVs" ++ [233]))
     = Raise (ValueError (lit "string argument should contain only ASCII characters")).
Proof.
  split.
  - exact (proj1 (decode_pipeline_result (lit "aGVsb")) eq_refl).
  - exact (proj2 (decode_pipeline_result (lit "aGVs" ++ [233])) eq_refl).
Defined.

(** X11: characters that are neither of the base64 alphabet nor the pad
    (spaces, tabs, line boundaries, punctuation) may stand anywhere in an
    ASCII content: when the other characters are the base64 text of a byte
    sequence, the pipeline returns the text of those bytes. *)
Theorem decode_ignores_other_characters (content : str) (bs : bytes) :
  is_bytes bs ->
  is_ascii (filter not_linebreak content) = true ->
  filter b64_significant (filter not_linebreak content) = b64encode bs ->
  decode_b64_content (JStr content) = Ret (decode_utf8_replace bs).
Proof.
  intros Hbs Hascii Henc.
  rewrite (proj1 (decode_b64_content_cases content) Hascii).
  rewrite a2b_base64_lenient_skips, Henc.
  pose proof (b64decode_b64encode bs false Hbs) as Hd.
  unfold b64decode in Hd. rewrite b64encode_ascii in Hd.
  destruct (a2b_base64 (b64encode bs) false) as [out|msg]; [|discriminate].
  now injection Hd as ->.
Qed.

Lemma decode_ignores_other_characters_witness :
  decode_b64_content (JStr (lit " aGVs" ++ [9] ++ lit "bG8= ."))
  = Ret (decode_utf8_replace (lit "hello")).
Proof.
  refine (decode_ignores_other_characters (lit " aGVs" ++ [9] ++ lit "bG8= .")
            (lit "hello") _ eq_refl eq_refl).
  unfold is_bytes. repeat constructor.
Defined.

(** X12: in structured mode, a string content with no reported encoding (no
    field, or null) is decoded as with the encoding "base64": [read_file]
    returns what the decode pipeline gives for the content, and starts no
    further process. *)
Theorem encoding_defaults_to_base64 (w : World) (owner repo path : str)
    (ref : option str) (t : list call) (out : bytes) (kv : list (str * json))
    (content : str) :
  gh_auth_status w = true ->
  gh_api w [api_path owner repo (normalized_path path) ref] = Completed out ->
  json_loads w out = Ret (JObject kv) ->
  dict_get (lit "content") kv = Some (JStr content) ->
  encoding_accepted kv ->
  read_file w owner repo path ref false t
  = (decode_b64_content (JStr content),
     t ++ [AuthStatus; GhApi [api_path owner repo (normalized_path path) ref]]).
Proof.
  intros Ha Hg Hj Hc He.
  rewrite (read_file_structured w owner repo path ref t out (JObject kv) Ha Hg Hj).
  unfold decode_content, bind, lift. cbn [py_get]. rewrite Hc.
  assert (Hok : (let encoding := match dict_get (lit "encoding") kv with
                                 | Some x => x
                                 | None => JNull
                                 end in
                 match encoding with
                 | JNull => false
                 | _ => negb (py_eq_str encoding (lit "base64"))
                 end) = false)
    by (destruct He as [-> |[-> | ->]]; reflexivity).
  cbv zeta in Hok. rewrite Hok.
  destruct (is_ascii (filter not_linebreak content)) eqn:Ea.
  - now rewrite (proj1 (decode_b64_content_cases content) Ea).
  - now rewrite (proj2 (decode_b64_content_cases content) Ea).
Qed.

Lemma encoding_defaults_to_base64_witness :
  read_file trunk_world (lit "acme") (lit "widgets") (lit "notes.txt") None false []
  = (decode_b64_content (JStr (lit "aGVs bG8=")),
     [] ++ [AuthStatus; GhApi [lit "repos/acme/widgets/contents//notes.txt"]]).
Proof.
  refine (encoding_defaults_to_base64 trunk_world (lit "acme") (lit "widgets")
            (lit "notes.txt") None []
            (json_dumps (JObject [(lit "content", JStr (lit "aGVs bG8="));
                                  (lit "encoding", JNull)]))
            [(lit "content", JStr (lit "aGVs bG8=")); (lit "encoding", JNull)]
            (lit "aGVs bG8=") eq_refl eq_refl eq_refl eq_refl _).
  right. left. reflexivity.
Defined.

(** ** The two filters of [list_tree] together *)

Lemma path_is_str_mixed_tree : Forall path_is_str mixed_tree.
Proof.
  repeat constructor; (eexists; split; [reflexivity|]; right; eexists; reflexivity).
Qed.

Lemma filter_all (A : Type) (f : A -> bool) (l : list A) :
  (forall x, In x l -> f x = true) -> filter f l = l.
Proof.
  intros H. apply forallb_filter_id. now apply forallb_forall.
Qed.

Lemma filter_twice (A : Type) (f g : A -> bool) (l : list A) :
  filter g (filter f l) = filter (fun x => f x && g x) l.
Proof.
  induction l as [|x l IH]; [reflexivity|]. simpl.
  destruct (f x); simpl; [destruct (g x)|]; now rewrite IH.
Qed.

Lemma Forall_filter_keeps (A : Type) (P : A -> Prop) (f : A -> bool) (l : list A) :
  Forall P l -> Forall P (filter f l).
Proof.
  intros H. apply Forall_forall. intros x Hx. apply filter_In in Hx as [Hx _].
  exact (proj1 (Forall_forall _ _) H x Hx).
Qed.

Lemma filter_path_kept (path : option str) (l : list json) :
  Forall path_is_str l ->
  filter_path path (JList l) = Ret (JList (filter (path_kept path) l)).
Proof.
  intros Hl. unfold filter_path, path_kept.
  destruct path as [p|]; [destruct p as [|c p]|]; cbn [is_empty negb].
  - now rewrite filter_all.
  - cbn [py_iter rbind].
    rewrite (filterM_filter _ (fun e => startswith (entry_path e) (lstrip_slash (c :: p)))).
    + reflexivity.
    + eapply Forall_impl; [|exact Hl]. intros e He. now apply path_filter_cond.
  - now rewrite filter_all.
Qed.

Lemma kind_cond (k : str) (e : json) :
  path_is_str e ->
  (t <~ py_get e (lit "type") JNull ;; Ret (py_eq_str t k))
  = Ret (py_eq_str (entry_type e) k).
Proof.
  intros [kv [-> _]]. reflexivity.
Qed.

Lemma filter_include_kept (include : str) (l : list json) :
  Forall path_is_str l ->
  filter_include include (JList l) = Ret (JList (filter (kind_kept include) l)).
Proof.
  intros Hl. unfold filter_include, kind_kept.
  destruct (str_eqb include (lit "files")).
  - cbn [py_iter rbind].
    rewrite (filterM_filter _ (fun e => py_eq_str (entry_type e) (lit "blob")));
      [reflexivity|].
    eapply Forall_impl; [|exact Hl]. intros e He. now apply kind_cond.
  - destruct (str_eqb include (lit "dirs")).
    + cbn [py_iter rbind].
      rewrite (filterM_filter _ (fun e => py_eq_str (entry_type e) (lit "tree")));
        [reflexivity|].
      eapply Forall_impl; [|exact Hl]. intros e He. now apply kind_cond.
    + now rewrite filter_all.
Qed.

Lemma mapped_project (l : list json) :
  Forall path_is_str l -> mapped (JList l) = Ret (map project l).
Proof.
  intros Hl. unfold mapped. cbn [py_iter rbind]. apply mapM_map.
  eapply Forall_impl; [|exact Hl]. intros e [kv [-> _]]. apply mapped_entry_object.
Qed.

(** What [tree_of_data] returns for a tree of well-formed entries. *)
Lemma tree_of_data_filtered (ref : json) (path : option str) (include : str)
    (kv : list (str * json)) (l : list json) :
  dict_get (lit "tree") kv = Some (JList l) ->
  Forall path_is_str l ->
  tree_of_data ref path include (JObject kv)
  = Ret (json_dumps
           (response ref
              (map project (filter (fun e => path_kept path e && kind_kept include e) l)))).
Proof.
  intros Ht Hl.
  rewrite (tree_of_data_tree ref path include kv (JList l)
             (JList (filter (path_kept path) l))
             (JList (filter (kind_kept include) (filter (path_kept path) l)))
             (map project (filter (kind_kept include) (filter (path_kept path) l)))
             Ht (filter_path_kept path l Hl)).
  - now rewrite filter_twice.
  - apply filter_include_kept. now apply Forall_filter_keeps.
  - apply mapped_project. now do 2 apply Forall_filter_keeps.
Qed.

(** X13: for a tree whose entries are objects with a string path (or none),
    the result lists, in the order of the tree, exactly the entries that pass
    both the path test and the kind test, each projected; and the two filters
    commute: applying the kind filter first selects the same entries. *)
Theorem tree_filters_compose (ref : json) (path : option str) (include : str)
    (kv : list (str * json)) (l : list json) :
  dict_get (lit "tree") kv = Some (JList l) ->
  Forall path_is_str l ->
  tree_of_data ref path include (JObject kv)
  = Ret (json_dumps
           (response ref
              (map project (filter (fun e => path_kept path e && kind_kept include e) l))))
  /\ filter (kind_kept include) (filter (path_kept path) l)
     = filter (path_kept path) (filter (kind_kept include) l).
Proof.
  intros Ht Hl. split; [now apply tree_of_data_filtered|].
  rewrite !filter_twice. apply filter_ext. intros e. apply andb_comm.
Qed.

Lemma tree_filters_compose_witness :
  tree_of_data (JStr (lit "main")) (Some (lit "/src")) (lit "files")
    (JObject [(lit "sha", JStr (lit "abc")); (lit "tree", JList mixed_tree)])
  = Ret (json_dumps
           (response (JStr (lit "main"))
              (map project
                 (filter (fun e => path_kept (Some (lit "/src")) e
                                   && kind_kept (lit "files") e) mixed_tree)))).
Proof.
  exact (proj1 (tree_filters_compose (JStr (lit "main")) (Some (lit "/src")) (lit "files")
                  [(lit "sha", JStr (lit "abc")); (lit "tree", JList mixed_tree)]
                  mixed_tree eq_refl path_is_str_mixed_tree)).
Defined.

Lemma py_eq_str_true (v : json) (k : str) :
  py_eq_str v k = true -> v = JStr k.
Proof.
  destruct v; try discriminate. cbn [py_eq_str]. intros H.
  now apply str_eqb_eq in H as ->.
Qed.

Lemma py_eq_str_iff (v : json) (k : str) :
  py_eq_str v k = true <-> v = JStr k.
Proof.
  split; [apply py_eq_str_true|]. intros ->. apply str_eqb_refl.
Qed.

(** The entries that the two filters keep for a kind of entry. *)
Lemma kept_of_type (path : option str) (k : str) (l : list json) (e : json) :
  In e (filter (fun e => path_kept path e && py_eq_str (entry_type e) k) l)
  <-> In e l /\ path_kept path e = true /\ entry_type e = JStr k.
Proof.
  rewrite filter_In, andb_true_iff, py_eq_str_iff. reflexivity.
Qed.

Lemma projected_of_type (path : option str) (k : str) (l : list json) (x : json) :
  Forall path_is_str l ->
  In x (map project (filter (fun e => path_kept path e && py_eq_str (entry_type e) k) l)) ->
  exists kv, x = projected_entry kv /\ field kv "type" = JStr k.
Proof.
  intros Hl Hx. apply in_map_iff in Hx as [e [<- He]].
  apply kept_of_type in He as [He [_ Hk]].
  destruct (proj1 (Forall_forall _ _) Hl e He) as [kv [-> _]].
  exists kv. split; [reflexivity|exact Hk].
Qed.

(** X14: with include = "dirs" the result lists the projections of exactly
    the entries of type "tree" that pass the path test, and each is a
    directory entry {path, type: "directory"}; with include = "files" it
    lists the projections of exactly the entries of type "blob" that pass
    the path test, and each is a file entry {path, type: "file", bytes}. An
    entry of another type (a submodule) is therefore in neither listing. *)
Theorem include_selects_kind (ref : json) (path : option str)
    (kv : list (str * json)) (l : list json) :
  dict_get (lit "tree") kv = Some (JList l) ->
  Forall path_is_str l ->
  (exists kept,
      tree_of_data ref path (lit "dirs") (JObject kv)
      = Ret (json_dumps (response ref (map project kept)))
      /\ (forall e, In e kept
                    <-> In e l /\ path_kept path e = true
                        /\ entry_type e = JStr (lit "tree"))
      /\ Forall is_directory_entry (map project kept))
  /\ (exists kept,
         tree_of_data ref path (lit "files") (JObject kv)
         = Ret (json_dumps (response ref (map project kept)))
         /\ (forall e, In e kept
                       <-> In e l /\ path_kept path e = true
                           /\ entry_type e = JStr (lit "blob"))
         /\ Forall is_file_entry (map project kept)).
Proof.
  intros Ht Hl. split.
  - exists (filter (fun e => path_kept path e && py_eq_str (entry_type e) (lit "tree")) l).
    split; [exact (tree_of_data_filtered ref path (lit "dirs") kv l Ht Hl)|].
    split; [intros e; apply kept_of_type|].
    apply Forall_forall. intros x Hx.
    destruct (projected_of_type path (lit "tree") l x Hl Hx) as [kv' [-> Hty]].
    unfold projected_entry. rewrite Hty. eexists. reflexivity.
  - exists (filter (fun e => path_kept path e && py_eq_str (entry_type e) (lit "blob")) l).
    split; [exact (tree_of_data_filtered ref path (lit "files") kv l Ht Hl)|].
    split; [intros e; apply kept_of_type|].
    apply Forall_forall. intros x Hx.
    destruct (projected_of_type path (lit "blob") l x Hl Hx) as [kv' [-> Hty]].
    unfold projected_entry. rewrite Hty. do 2 eexists. reflexivity.
Qed.

Lemma include_selects_kind_witness :
  exists kept,
    tree_of_data (JStr (lit "main")) None (lit "files")
      (JObject [(lit "tree", JList mixed_tree)])
    = Ret (json_dumps (response (JStr (lit "main")) (map project kept)))
    /\ (forall e, In e kept
                  <-> In e mixed_tree /\ path_kept None e = true
                      /\ entry_type e = JStr (lit "blob"))
    /\ Forall is_file_entry (map project kept).
Proof.
  exact (proj2 (include_selects_kind (JStr (lit "main")) None
                  [(lit "tree", JList mixed_tree)]
                  mixed_tree eq_refl path_is_str_mixed_tree)).
Defined.

Lemma lstrip_only_slashes (p : str) : only_slashes p = true -> lstrip_slash p = [].
Proof.
  induction p as [|c p IH]; [reflexivity|]. cbn [only_slashes forallb lstrip_slash].
  intros H. apply andb_true_iff in H as [Hc Hp]. apply N.eqb_eq in Hc. subst c.
  cbn [N.eqb Pos.eqb]. exact (IH Hp).
Qed.

(** X15: a path filter made of slashes only (such as "/" for the root)
    filters nothing: for a tree of well-formed entries the result is the one
    of the call without a path. *)
Theorem root_path_keeps_all (ref : json) (p include : str)
    (kv : list (str * json)) (l : list json) :
  only_slashes p = true ->
  dict_get (lit "tree") kv = Some (JList l) ->
  Forall path_is_str l ->
  tree_of_data ref (Some p) include (JObject kv)
  = tree_of_data ref None include (JObject kv).
Proof.
  intros Hp Ht Hl.
  rewrite (tree_of_data_filtered ref (Some p) include kv l Ht Hl).
  rewrite (tree_of_data_filtered ref None include kv l Ht Hl).
  assert (Hsame : filter (fun e => path_kept (Some p) e && kind_kept include e) l
                  = filter (fun e => path_kept None e && kind_kept include e) l).
  { apply filter_ext. intros e. f_equal.
    unfold path_kept. destruct (is_empty p); [reflexivity|].
    rewrite (lstrip_only_slashes p Hp). apply startswith_empty. }
  now rewrite Hsame.
Qed.

Lemma root_path_keeps_all_witness :
  tree_of_data (JStr (lit "main")) (Some (lit "/")) (lit "all")
    (JObject [(lit "tree", JList mixed_tree)])
  = tree_of_data (JStr (lit "main")) None (lit "all")
      (JObject [(lit "tree", JList mixed_tree)]).
Proof.
  exact (root_path_keeps_all (JStr (lit "main")) (lit "/") (lit "all")
           [(lit "tree", JList mixed_tree)] mixed_tree eq_refl eq_refl
           path_is_str_mixed_tree).
Defined.

(** ** The processes a call starts *)




(** ** Startup *)

(** X17: [main] enters the server loop exactly when [gh] can be started, the
    version command exits with 0 and the session is valid, after these two
    probes in this order. When the version command fails, it prints "Error:
    gh command not found" without probing the session. When [gh] cannot be
    started at all, [main] prints nothing: the exception of the first probe
    propagates. *)
Theorem main_gate (w : World) (installed : bool) (t : list call) :
  (fst (main w installed t) = Ret ServerRan
   <-> installed = true
       /\ (exists out, gh_api w [lit "--version"] = Completed out)
       /\ gh_auth_status w = true)
  /\ (fst (main w installed t) = Ret ServerRan ->
      snd (main w installed t) = t ++ [GhApi [lit "--version"]; AuthStatus])
  /\ (installed = true ->
      (exists msg stderr, gh_api w [lit "--version"] = NonZeroExit msg stderr) ->
      main w installed t
      = (Ret (Printed (lit "Error: gh command not found")), t ++ [GhApi [lit "--version"]]))
  /\ (installed = false -> exists e, main w installed t = (Raise e, t)).
Proof.
  unfold main, bind, gh_command_exists, is_authenticated, ret.
  destruct installed.
  - destruct (gh_api w [lit "--version"]) as [out|msg stderr|f]; cbn [negb fst snd].
    + destruct (gh_auth_status w); cbn [negb fst snd].
      * split; [split; [intros _; eauto|reflexivity]|].
        split; [intros _; now rewrite <- app_assoc|].
        split; [intros _ [m [e H]]; discriminate|discriminate].
      * split; [split; [discriminate|intros [_ [_ H]]; discriminate]|].
        split; [discriminate|].
        split; [intros _ [m [e H]]; discriminate|discriminate].
    + split; [split; [discriminate|intros [_ [[out H] _]]; discriminate]|].
      split; [discriminate|]. split; [reflexivity|discriminate].
    + split; [split; [discriminate|intros [_ [[out H] _]]; discriminate]|].
      split; [discriminate|].
      split; [intros _ [m [e H]]; discriminate|discriminate].
  - cbn [fst snd].
    split; [split; [discriminate|intros [H _]; discriminate]|].
    split; [discriminate|]. split; [discriminate|]. intros _. eauto.
Qed.

Lemma main_gate_witness :
  main logged_out true []
  = (Ret (Printed (lit "Error: gh command not found")), [] ++ [GhApi [lit "--version"]]).
Proof.
  refine (proj1 (proj2 (proj2 (main_gate logged_out true []))) eq_refl _).
  do 2 eexists. reflexivity.
Defined.
